(** * MeowNet context builder: a shallow embedding of
      [src/scripts/context_builder.py] and the properties of its
      selection, prioritisation, rendering and truncation pipeline. *)

From Stdlib Require Import List ZArith NArith Bool Lia Ascii String.
From Stdlib Require Import DecimalString Permutation Sorted.
Import ListNotations.

Set Implicit Arguments.
Set Warnings "-register-all".

(** ** Python values

    A Python [str] is a sequence of Unicode code points: [len] counts code
    points and comparison is code point by code point.  Literals of the
    source are written as UTF-8 text and decoded by [py]. *)

Module Py.

Definition char := N.
Definition str := list char.

Fixpoint utf8_decode (pending : nat) (acc : N) (bs : list N) : str :=
  match bs with
  | [] => []
  | b :: rest =>
      match pending with
      | O =>
          if (b <? 128)%N then b :: utf8_decode 0 0%N rest
          else if (b <? 224)%N then utf8_decode 1 (b - 192)%N rest
          else if (b <? 240)%N then utf8_decode 2 (b - 224)%N rest
          else utf8_decode 3 (b - 240)%N rest
      | S O => (acc * 64 + (b - 128))%N :: utf8_decode 0 0%N rest
      | S p => utf8_decode p (acc * 64 + (b - 128))%N rest
      end
  end.

Definition py (s : string) : str :=
  utf8_decode 0 0%N (map N_of_ascii (list_ascii_of_string s)).

Definition char_eqb : char -> char -> bool := N.eqb.

Fixpoint str_eqb (a b : str) : bool :=
  match a, b with
  | [], [] => true
  | x :: a', y :: b' => char_eqb x y && str_eqb a' b'
  | _, _ => false
  end.

(** [len(s)] *)
Definition len (A : Type) (s : list A) : Z := Z.of_nat (List.length s).

(** [s.startswith(p)] *)
Fixpoint startswith (s p : str) {struct p} : bool :=
  match p, s with
  | [], _ => true
  | c :: p', d :: s' => char_eqb c d && startswith s' p'
  | _ :: _, [] => false
  end.

(** [s.endswith(p)] *)
Definition endswith (s p : str) : bool := startswith (rev s) (rev p).

(** [needle in hay] for two strings *)
Fixpoint contains (needle hay : str) : bool :=
  startswith hay needle ||
  match hay with
  | [] => false
  | _ :: hay' => contains needle hay'
  end.

(** [x in l] for a string and a collection of strings *)
Definition mem (x : str) (l : list str) : bool := existsb (str_eqb x) l.

(** [c in s] for one character *)
Definition has_char (c : char) (s : str) : bool := existsb (char_eqb c) s.

Definition NL : char := 10%N.

(** [s.split('\n')]: always at least one piece. *)
Fixpoint split_lines (s : str) : list str :=
  match s with
  | [] => [[]]
  | c :: s' =>
      if char_eqb c NL then [] :: split_lines s'
      else match split_lines s' with
           | [] => [[c]]
           | l :: ls => (c :: l) :: ls
           end
  end.

(** [sep.join(parts)] *)
Fixpoint join (sep : str) (parts : list str) : str :=
  match parts with
  | [] => []
  | [p] => p
  | p :: ps => p ++ sep ++ join sep ps
  end.

(** Slices [l[:n]] and [l[n:]] with Python's treatment of negative and
    out-of-range bounds. *)
Definition slice_index (A : Type) (l : list A) (n : Z) : nat :=
  let k := if (n <? 0)%Z then (n + len l)%Z else n in
  Z.to_nat (Z.min (Z.max k 0) (len l)).

Definition slice_to (A : Type) (l : list A) (n : Z) : list A :=
  firstn (slice_index l n) l.

Definition slice_from (A : Type) (l : list A) (n : Z) : list A :=
  skipn (slice_index l n) l.

(** [str(n)] for an integer, as used by f-strings. *)
Definition str_of_Z (z : Z) : str :=
  map N_of_ascii (list_ascii_of_string (NilZero.string_of_int (Z.to_int z))).

(** [c * n] for a one-character string *)
Definition repeat_char (c : char) (n : nat) : str := repeat c n.

(** [str.isspace] on one character *)
Definition isspace (c : char) : bool :=
  ((9 <=? c) && (c <=? 13) || (28 <=? c) && (c <=? 32) || (c =? 133) ||
   (c =? 160) || (c =? 5760) || (8192 <=? c) && (c <=? 8202) ||
   (c =? 8232) || (c =? 8233) || (c =? 8239) || (c =? 8287) ||
   (c =? 12288))%N.

Fixpoint lstrip (s : str) : str :=
  match s with
  | c :: s' => if isspace c then lstrip s' else s
  | [] => []
  end.

(** [s.strip()] *)
Definition strip (s : str) : str := rev (lstrip (rev (lstrip s))).

(** Lexicographic comparison of strings, code point by code point. *)
Fixpoint str_compare (a b : str) : comparison :=
  match a, b with
  | [], [] => Eq
  | [], _ :: _ => Lt
  | _ :: _, [] => Gt
  | x :: a', y :: b' =>
      match N.compare x y with
      | Eq => str_compare a' b'
      | c => c
      end
  end.

(** *** [pathlib.PurePosixPath]

    A path is its anchor (empty, ["/"] or ["//"]) and its components; parsing
    drops empty and ["."] components, as pathlib does. *)

Record Path := mkPath { anchor : str; parts : list str }.

Definition SLASH : char := 47%N.
Definition DOT : char := 46%N.

(** [s.split('/')] *)
Fixpoint split_slash (s : str) : list str :=
  match s with
  | [] => [[]]
  | c :: s' =>
      if char_eqb c SLASH then [] :: split_slash s'
      else match split_slash s' with
           | [] => [[c]]
           | l :: ls => (c :: l) :: ls
           end
  end.

Definition parse_anchor (s : str) : str :=
  match s with
  | a :: b :: c :: _ =>
      if char_eqb a SLASH then
        if char_eqb b SLASH && negb (char_eqb c SLASH) then [SLASH; SLASH]
        else [SLASH]
      else []
  | [a; b] =>
      if char_eqb a SLASH then
        if char_eqb b SLASH then [SLASH; SLASH] else [SLASH]
      else []
  | [a] => if char_eqb a SLASH then [SLASH] else []
  | [] => []
  end.

(** [Path(s)] *)
Definition path_of_str (s : str) : Path :=
  {| anchor := parse_anchor s;
     parts := filter (fun seg => negb (str_eqb seg [] || str_eqb seg [DOT]))
                     (split_slash s) |}.

(** [str(p)] *)
Definition path_str (p : Path) : str :=
  match anchor p, parts p with
  | [], [] => [DOT]
  | a, ps => a ++ join [SLASH] ps
  end.

(** [p.name] *)
Definition path_name (p : Path) : str := last (parts p) [].

(** [p.parent] *)
Definition path_parent (p : Path) : Path :=
  {| anchor := anchor p; parts := removelast (parts p) |}.

(** [p / name] for a directory entry [name] (one component). *)
Definition path_child (p : Path) (name : str) : Path :=
  {| anchor := anchor p; parts := parts p ++ [name] |}.

(** [s.rfind('.')], as the number of characters after the last dot. *)
Fixpoint after_last_dot (s : str) : option str :=
  match s with
  | [] => None
  | c :: s' =>
      match after_last_dot s' with
      | Some t => Some t
      | None => if char_eqb c DOT then Some s' else None
      end
  end.

(** [p.suffix]: the part of the name from its last dot, when that dot is
    neither the first nor the last character of the name. *)
Definition path_suffix (p : Path) : str :=
  let name := path_name p in
  match after_last_dot name with
  | Some ext =>
      if (0 <? len name - len ext - 1)%Z && (0 <? len ext)%Z
      then DOT :: ext else []
  | None => []
  end.

(** *** [fnmatch.fnmatch] on POSIX (no case folding)

    [*] matches any run of characters, [?] one character, [[seq]] one
    character of [seq] (with ranges [a-z]), [[!seq]] one character not in
    [seq]; a [[] without its closing bracket is literal. *)

Inductive class_item :=
| One (c : char)
| Range (lo hi : char).

Inductive glob :=
| Star
| AnyChar
| Lit (c : char)
| Class (negated : bool) (items : list class_item).

Definition STAR : char := 42%N.
Definition QUESTION : char := 63%N.
Definition LBRACKET : char := 91%N.
Definition RBRACKET : char := 93%N.
Definition BANG : char := 33%N.
Definition HYPHEN : char := 45%N.

Fixpoint class_items (s : str) : list class_item :=
  match s with
  | [] => []
  | lo :: s' =>
      match s' with
      | d :: hi :: rest =>
          if char_eqb d HYPHEN then Range lo hi :: class_items rest
          else One lo :: class_items s'
      | _ => One lo :: class_items s'
      end
  end.

Fixpoint until_close (s : str) : option (str * str) :=
  match s with
  | [] => None
  | c :: s' =>
      if char_eqb c RBRACKET then Some ([], s')
      else match until_close s' with
           | Some (body, rest) => Some (c :: body, rest)
           | None => None
           end
  end.

(** The text after a [[]: whether it is negated, the characters of the
    class, and what follows the closing bracket. *)
Definition bracket (s : str) : option (bool * str * str) :=
  let (neg, s1) :=
    match s with
    | c :: s' => if char_eqb c BANG then (true, s') else (false, s)
    | [] => (false, s)
    end in
  let (lead, s2) :=
    match s1 with
    | c :: s' => if char_eqb c RBRACKET then ([c], s') else ([], s1)
    | [] => ([], s1)
    end in
  match until_close s2 with
  | Some (body, rest) => Some (neg, lead ++ body, rest)
  | None => None
  end.

Fixpoint glob_parse (fuel : nat) (pat : str) : list glob :=
  match fuel, pat with
  | S fuel', c :: pat' =>
      if char_eqb c STAR then Star :: glob_parse fuel' pat'
      else if char_eqb c QUESTION then AnyChar :: glob_parse fuel' pat'
      else if char_eqb c LBRACKET then
        match bracket pat' with
        | Some (neg, body, rest) =>
            Class neg (class_items body) :: glob_parse fuel' rest
        | None => Lit c :: glob_parse fuel' pat'
        end
      else Lit c :: glob_parse fuel' pat'
  | _, _ => []
  end.

Definition item_match (c : char) (i : class_item) : bool :=
  match i with
  | One d => char_eqb c d
  | Range lo hi => (lo <=? c)%N && (c <=? hi)%N
  end.

Definition glob_char (g : glob) (c : char) : bool :=
  match g with
  | Star | AnyChar => true
  | Lit d => char_eqb c d
  | Class neg items => xorb neg (existsb (item_match c) items)
  end.

Fixpoint glob_match (gs : list glob) (name : str) : bool :=
  match gs with
  | [] => match name with [] => true | _ :: _ => false end
  | Star :: gs' =>
      (fix star (n : str) : bool :=
         glob_match gs' n ||
         match n with
         | [] => false
         | _ :: n' => star n'
         end) name
  | g :: gs' =>
      match name with
      | c :: n' => glob_char g c && glob_match gs' n'
      | [] => false
      end
  end.

Definition fnmatch (name pat : str) : bool :=
  glob_match (glob_parse (List.length pat) pat) name.

End Py.

Import Py.

Open Scope Z_scope.

(** ** Utility functions *)

(** The two markers of [truncate_content]: the line inserted between the
    head and the tail, and the text appended after a character cut. *)
Definition line_marker_text (half total_lines : Z) : str :=
  py "[... файл обрезан, показано " ++ str_of_Z (half * 2) ++
  py " из " ++ str_of_Z total_lines ++ py " строк ...]".

Definition line_marker (half total_lines : Z) : str :=
  [NL] ++ line_marker_text half total_lines ++ [NL].

Definition char_marker (hidden : Z) : str :=
  [NL] ++ py "[... файл обрезан, " ++ str_of_Z hidden ++
  py " символов скрыто ...]".

(** [truncate_content(content, max_lines, max_chars)] *)
Definition truncate_content (content : str) (max_lines max_chars : Z) : str :=
  let lines := split_lines content in
  let total_lines := len lines in
  if (total_lines <=? max_lines) && (len content <=? max_chars) then content
  else
    let result :=
      if total_lines >? max_lines then
        let half := max_lines / 2 in
        let first_part := slice_to lines half in
        let last_part :=
          if total_lines >? half * 2 then slice_from lines (- half) else [] in
        let truncated :=
          first_part ++ [line_marker half total_lines] ++ last_part in
        join [NL] truncated
      else content in
    if len result >? max_chars then
      slice_to result max_chars ++ char_marker (len content - max_chars)
    else result.

(** The value of [result] in [truncate_content] when the character check
    is reached: the text after the line-count cut. *)
Definition line_cut (content : str) (max_lines : Z) : str :=
  let lines := split_lines content in
  let total_lines := len lines in
  if total_lines >? max_lines then
    let half := max_lines / 2 in
    let first_part := slice_to lines half in
    let last_part :=
      if total_lines >? half * 2 then slice_from lines (- half) else [] in
    join [NL] (first_part ++ [line_marker half total_lines] ++ last_part)
  else content.

(** The test input of the truncation scenario: [n] lines ["# Line i"]. *)
Definition numbered_lines (n : nat) : str :=
  join [NL] (map (fun i => py "# Line " ++ str_of_Z (Z.of_nat i)) (seq 0 n)).

Inductive FilePriority := CRITICAL | HIGH | MEDIUM | LOW | NOISE.

Definition priority_value (p : FilePriority) : Z :=
  match p with
  | CRITICAL => 100
  | HIGH => 80
  | MEDIUM => 50
  | LOW => 30
  | NOISE => 0
  end.

(** [detect_file_priority(file_path)] *)
Definition detect_file_priority (file_path : Path) : FilePriority :=
  let path_str := path_str file_path in
  let name := path_name file_path in
  let parent := path_name (path_parent file_path) in
  if mem name (map py ["pyproject.toml"; "README.md"; "README.rst";
                       "LICENSE"; "MANIFEST.in"]%string)
  then CRITICAL
  else if mem name (map py ["setup.py"; "setup.cfg"; "requirements.txt";
                            "Pipfile"; "docker-compose.yml"; ".env.example";
                            ".gitignore"; ".dockerignore";
                            ".pre-commit-config.yaml"]%string)
  then HIGH
  else
    let docs_and_config :=
      if mem (path_suffix file_path) (map py [".md"; ".rst"; ".txt"]%string)
      then
        if mem parent (map py ["docs"; "documentation"]%string) then LOW
        else MEDIUM
      else if mem (path_suffix file_path)
                  (map py [".yml"; ".yaml"; ".json"; ".toml"; ".cfg";
                           ".ini"]%string)
      then MEDIUM
      else NOISE in
    if str_eqb (path_suffix file_path) (py ".py") then
      if existsb (fun part => contains part path_str)
                 (map py ["/src/"; "/lib/"; "/core/"; "/main/";
                          "/app/"]%string)
         && (negb (contains (py "test") name)
             && negb (contains (py "test") path_str))
      then HIGH
      else if contains (py "test") name
              || contains (py "tests/") path_str
              || contains (py "/test_") path_str
      then MEDIUM
      else if existsb (fun part => contains part path_str)
                      (map py ["/utils/"; "/helpers/"; "/tools/";
                               "/scripts/"]%string)
      then MEDIUM
      else docs_and_config
    else docs_and_config.

(** [match_pattern(filename, pattern)] *)
Definition match_pattern (filename pattern : str) : bool :=
  if str_eqb pattern filename then true
  else if has_char STAR pattern then fnmatch filename pattern
  else if startswith pattern [DOT] then endswith filename pattern
  else false.

(** ** Exceptions

    Fallible code returns a [result]: the value, or the exception that
    is raised.  The classes are those [ast.parse] and [ast.unparse] raise
    on a string. *)

Inductive exn :=
| SyntaxError
| RecursionError
| ValueError
| UnicodeEncodeError.

Inductive result (A : Type) :=
| Return (a : A)
| Raise (e : exn).

Arguments Return {A} a.
Arguments Raise {A} e.

Definition bind (A B : Type) (r : result A) (k : A -> result B) : result B :=
  match r with
  | Return a => k a
  | Raise e => Raise e
  end.

Notation "x <- r ;; k" := (bind r (fun x => k))
  (at level 61, r at next level, right associativity).

(** ** The [ast] module

    The syntax tree keeps the nodes [analyze] looks at; every other
    statement-like node is [Other] with its children, so that depth and
    sibling order, hence the order of [ast.walk], are those of the full
    tree.  The grammar itself and [ast.unparse] are collaborators. *)

Inductive expr :=
| Name (id : str)
| Attribute (value : expr) (attr : str)
| OtherExpr.

Record arguments := mkArguments {
  args : list str;
  vararg : option str;
  kwarg : option str
}.

Inductive node :=
| Import (names : list str)
| ImportFrom (module : option str) (names : list str)
| ClassDef (name : str) (bases : list expr) (body : list node)
| FunctionDef (name : str) (fargs : arguments) (body : list node)
| AsyncFunctionDef (name : str) (fargs : arguments) (body : list node)
| Other (children : list node).

(** [ast.iter_child_nodes] *)
Definition iter_child_nodes (n : node) : list node :=
  match n with
  | Import _ | ImportFrom _ _ => []
  | ClassDef _ _ body => body
  | FunctionDef _ _ body => body
  | AsyncFunctionDef _ _ body => body
  | Other children => children
  end.

Fixpoint node_count (n : node) : nat :=
  let count_all :=
    fix count_all (l : list node) : nat :=
      match l with
      | [] => O
      | m :: l' => (node_count m + count_all l')%nat
      end in
  match n with
  | Import _ | ImportFrom _ _ => 1%nat
  | ClassDef _ _ body => S (count_all body)
  | FunctionDef _ _ body => S (count_all body)
  | AsyncFunctionDef _ _ body => S (count_all body)
  | Other children => S (count_all children)
  end.

(** [ast.walk]: breadth first, driven by a queue. *)
Fixpoint walk_queue (fuel : nat) (todo : list node) : list node :=
  match fuel, todo with
  | S fuel', n :: rest => n :: walk_queue fuel' (rest ++ iter_child_nodes n)
  | _, _ => []
  end.

Definition walk (tree : node) : list node :=
  walk_queue (node_count tree) [tree].

(** The first stage of [ast.parse]: the source is encoded with the UTF-8
    codec before the grammar sees it, and a lone surrogate (U+D800 to
    U+DFFF) cannot be encoded: [UnicodeEncodeError], a [ValueError]. *)
Definition is_surrogate (c : char) : bool :=
  ((55296 <=? c) && (c <=? 57343))%N.

Definition ast_parse (grammar : str -> result node) (source : str)
  : result node :=
  if existsb is_surrogate source then Raise UnicodeEncodeError
  else grammar source.

(** ** Data structures *)

Record ExclusionSet := mkExclusionSet {
  dirs : list str;
  files : list str;
  file_patterns : list str;
  extensions : list str
}.

Definition default_exclusions : ExclusionSet :=
  {| dirs := map py
       ["__pycache__"; ".git"; ".svn"; ".hg"; ".idea"; ".vscode";
        "node_modules"; "venv"; ".venv"; "env"; ".env";
        "dist"; "build"; "out"; "target"; "bin"; "obj";
        ".pytest_cache"; ".mypy_cache"; ".ruff_cache"; "coverage";
        "*.egg-info"; "__pycache__"; ".cache"]%string;
     files := map py
       [".DS_Store"; "Thumbs.db"; "desktop.ini";
        "*.pyc"; "*.pyo"; "*.pyd"; "*.so"; "*.dll"; "*.dylib";
        "*.class"; "*.jar"; "*.war"; "*.ear";
        "*.log"; "*.sqlite"; "*.db"; "*.sqlite3";
        "*.min.js"; "*.min.css"; "*.map";
        "package-lock.json"; "yarn.lock"; "pnpm-lock.yaml";
        "poetry.lock"; "Pipfile.lock";
        "pip-delete-this-directory.txt"]%string;
     file_patterns := map py
       ["*.pyc"; "*.log"; "*.tmp"; "*.temp"; "*.swp"; "*.swo";
        "*.bak"; "*.backup"; "*~"; "#*#"; ".#*"]%string;
     extensions := map py
       [".pyc"; ".pyo"; ".pyd"; ".so"; ".dll"; ".dylib";
        ".class"; ".jar"; ".war"; ".ear"; ".log";
        ".min.js"; ".min.css"; ".map"]%string |}.

Record FileAnalysis := mkFileAnalysis {
  imports : list str;
  classes : list str;
  functions : list str;
  line_count : Z;
  code_line_count : Z
}.

Record FileInfo := mkFileInfo {
  path : Path;
  content : str;
  relative_path : str;
  priority : FilePriority;
  analysis : option FileAnalysis
}.

(** ** PythonFileAnalyzer *)

Section PythonFileAnalyzer.

Variable grammar : str -> result node.
Variable ast_unparse : expr -> result str.

(** [_extract_function_args(node)] on the [arguments] of a definition *)
Definition _extract_function_args (a : arguments) : str :=
  join (py ", ")
       (args a
        ++ match vararg a with Some v => [py "*" ++ v] | None => [] end
        ++ match kwarg a with Some k => [py "**" ++ k] | None => [] end).

(** The [bases] loop of the [ClassDef] branch. *)
Fixpoint class_bases (bases : list expr) : result (list str) :=
  match bases with
  | [] => Return []
  | base :: rest =>
      match base with
      | Name id => tl <- class_bases rest ;; Return (id :: tl)
      | Attribute _ _ =>
          s <- ast_unparse base ;;
          tl <- class_bases rest ;; Return (s :: tl)
      | OtherExpr => class_bases rest
      end
  end.

Definition isinstance_AsyncFunctionDef (n : node) : bool :=
  match n with
  | AsyncFunctionDef _ _ _ => true
  | _ => false
  end.

(** One iteration of the loop over [ast.walk(tree)]: the analysis after
    the node, or the exception that left the loop. *)
Definition visit (a : FileAnalysis) (n : node) : result FileAnalysis :=
  match n with
  | Import names =>
      Return {| imports := imports a ++ map (fun nm => py "import " ++ nm) names;
                classes := classes a; functions := functions a;
                line_count := line_count a;
                code_line_count := code_line_count a |}
  | ImportFrom module names =>
      let module := match module with Some m => m | None => [] end in
      let names := join (py ", ") names in
      Return {| imports := imports a
                  ++ [py "from " ++ module ++ py " import " ++ names];
                classes := classes a; functions := functions a;
                line_count := line_count a;
                code_line_count := code_line_count a |}
  | ClassDef name bases _ =>
      bases <- class_bases bases ;;
      let base_str :=
        match bases with
        | [] => []
        | _ :: _ => py "(" ++ join (py ", ") bases ++ py ")"
        end in
      Return {| imports := imports a;
                classes := classes a ++ [name ++ base_str];
                functions := functions a;
                line_count := line_count a;
                code_line_count := code_line_count a |}
  | FunctionDef name fargs _ =>
      let args := _extract_function_args fargs in
      let async_prefix :=
        if isinstance_AsyncFunctionDef n then py "async " else [] in
      Return {| imports := imports a; classes := classes a;
                functions := functions a
                  ++ [async_prefix ++ name ++ py "(" ++ args ++ py ")"];
                line_count := line_count a;
                code_line_count := code_line_count a |}
  | AsyncFunctionDef name fargs _ =>
      let args := _extract_function_args fargs in
      Return {| imports := imports a; classes := classes a;
                functions := functions a
                  ++ [py "async " ++ name ++ py "(" ++ args ++ py ")"];
                line_count := line_count a;
                code_line_count := code_line_count a |}
  | Other _ => Return a
  end.

(** The loop: the analysis object is updated in place, so an exception
    leaves it as the nodes before the failing one made it. *)
Fixpoint visit_all (a : FileAnalysis) (nodes : list node)
  : FileAnalysis * option exn :=
  match nodes with
  | [] => (a, None)
  | n :: rest =>
      match visit a n with
      | Return a' => visit_all a' rest
      | Raise e => (a, Some e)
      end
  end.

(** [except (SyntaxError, RecursionError)] *)
Definition caught (e : exn) : bool :=
  match e with
  | SyntaxError | RecursionError => true
  | ValueError | UnicodeEncodeError => false
  end.

Definition is_code_line (line : str) : bool :=
  negb (str_eqb (strip line) []) && negb (startswith (strip line) (py "#")).

(** [PythonFileAnalyzer.analyze(content)] *)
Definition analyze (content : str) : result FileAnalysis :=
  let analysis :=
    {| imports := []; classes := []; functions := [];
       line_count := len (split_lines content); code_line_count := 0 |} in
  match ast_parse grammar content with
  | Raise e => if caught e then Return analysis else Raise e
  | Return tree =>
      match visit_all analysis (walk tree) with
      | (analysis, Some e) => if caught e then Return analysis else Raise e
      | (analysis, None) =>
          let code_lines := filter is_code_line (split_lines content) in
          Return {| imports := imports analysis;
                    classes := classes analysis;
                    functions := functions analysis;
                    line_count := line_count analysis;
                    code_line_count := len code_lines |}
      end
  end.

End PythonFileAnalyzer.

(** ** Sorting

    [list.sort] and [sorted] are stable; [py_sort] is the stable sort for
    the order whose [<] is [lt]. *)

Section Sort.

Variable A : Type.
Variable lt : A -> A -> bool.

Fixpoint insert_sorted (x : A) (l : list A) : list A :=
  match l with
  | [] => [x]
  | y :: l' => if lt y x then y :: insert_sorted x l' else x :: l
  end.

Fixpoint py_sort (l : list A) : list A :=
  match l with
  | [] => []
  | x :: l' => insert_sorted x (py_sort l')
  end.

(** [x] may stand before [y] in sorted order: [y < x] does not hold. *)
Definition not_after (x y : A) : Prop := lt y x = false.

End Sort.

Definition str_lt (a b : str) : bool :=
  match str_compare a b with
  | Lt => true
  | _ => false
  end.

(** [sorted(l)] for a list of strings *)
Definition sorted : list str -> list str := py_sort str_lt.

(** ** The file system

    What [os.walk] sees under the root: files and directories by name, in
    listing order; [read_text] is what opening a path for reading gives
    ([None] when it fails). *)

Inductive entry :=
| File (name : str)
| Dir (name : str) (entries : list entry).

Record FileSystem := mkFileSystem {
  listing : list entry;
  read_text : Path -> option str
}.

(** ** ContextBuilder *)

Record ContextBuilder := mkContextBuilder {
  root : Path;
  exclusions : ExclusionSet;
  custom_filters : list (str * (Path -> bool))
}.

(** [ContextBuilder(root_path)] *)
Definition new_builder (root_path : Path) : ContextBuilder :=
  {| root := root_path; exclusions := default_exclusions;
     custom_filters := [] |}.

(** [get_default_excludes()] *)
Definition get_default_excludes (b : ContextBuilder) : ExclusionSet :=
  exclusions b.

(** [add_filter(name, condition)] *)
Definition add_filter (b : ContextBuilder) (name : str)
    (condition : Path -> bool) : ContextBuilder :=
  {| root := root b; exclusions := exclusions b;
     custom_filters := custom_filters b ++ [(name, condition)] |}.

(** [_should_exclude(path)]; [is_dir] is the answer of [path.is_dir()]. *)
Definition _should_exclude (b : ContextBuilder) (is_dir : bool) (p : Path)
  : bool :=
  let custom := existsb (fun filter_info => snd filter_info p)
                        (custom_filters b) in
  if is_dir then
    if existsb (fun pattern => match_pattern (path_name p) pattern)
               (dirs (exclusions b))
    then true else custom
  else
    if existsb (fun pattern => match_pattern (path_name p) pattern)
               (files (exclusions b))
    then true
    else if existsb (fun pattern => fnmatch (path_name p) pattern)
                    (file_patterns (exclusions b))
    then true
    else if existsb (fun ext => str_eqb (path_suffix p) ext)
                    (extensions (exclusions b))
    then true
    else custom.

(** [apply_filters(files)], each path with its [is_dir()] answer. *)
Definition apply_filters (b : ContextBuilder) (files : list (bool * Path))
  : list Path :=
  map snd (filter (fun f => negb (_should_exclude b (fst f) (snd f))) files).

(** The loop over [os.walk(root, topdown=True)] from the directory [e] at
    [root_path]: the files of the directory that are kept, then the walk of
    each subdirectory that was left in [dirs]. *)
Fixpoint walk_collect (b : ContextBuilder) (root_path : Path) (e : entry)
  : list Path :=
  match e with
  | File _ => []
  | Dir _ entries =>
      flat_map (fun f =>
                  match f with
                  | File file =>
                      let file_path := path_child root_path file in
                      if _should_exclude b false file_path then []
                      else [file_path]
                  | Dir _ _ => []
                  end) entries
      ++ flat_map (fun d =>
                     match d with
                     | Dir name _ =>
                         if _should_exclude b true (path_child root_path name)
                         then []
                         else walk_collect b (path_child root_path name) d
                     | File _ => []
                     end) entries
  end.

(** [_collect_all_files()] *)
Definition _collect_all_files (b : ContextBuilder) (fs : FileSystem)
  : list Path :=
  walk_collect b (root b) (Dir (path_name (root b)) (listing fs)).

(** [file_path.relative_to(self.root).parts] for a path under the root *)
Definition relative_parts (b : ContextBuilder) (file_path : Path) : list str :=
  skipn (List.length (parts (root b))) (parts file_path).

(** *** build_directory_tree

    [structure] is the [defaultdict(list)] from directory path to child
    names, in insertion order. *)

Definition structure_t := list (str * list str).

Fixpoint structure_get (s : structure_t) (k : str) : option (list str) :=
  match s with
  | [] => None
  | (k', v) :: s' => if str_eqb k' k then Some v else structure_get s' k
  end.

(** [structure[k].append(v)] *)
Fixpoint structure_append (s : structure_t) (k v : str) : structure_t :=
  match s with
  | [] => [(k, [v])]
  | (k', vs) :: s' =>
      if str_eqb k' k then (k', vs ++ [v]) :: s'
      else (k', vs) :: structure_append s' k v
  end.

Definition structure_has (s : structure_t) (k : str) : bool :=
  match structure_get s k with
  | Some _ => true
  | None => false
  end.

Definition children_of (s : structure_t) (k : str) : list str :=
  match structure_get s k with
  | Some v => v
  | None => []
  end.

(** The body of the loop over the collected files, for one file. *)
Definition register_file (s : structure_t) (parts : list str) : structure_t :=
  if (len parts =? 1) then structure_append s [DOT] (nth 0 parts [])
  else
    fold_left
      (fun s i =>
         let dir_path := join [SLASH] (firstn i parts) in
         if (Z.of_nat i =? len parts - 1)
         then structure_append s dir_path (nth i parts [])
         else
           let dir_name := nth i parts [] in
           if mem dir_name (children_of s dir_path) then s
           else structure_append s dir_path dir_name)
      (seq 1 (List.length parts - 1)) s.

Definition ICON_DIR : str := py "📁 ".
Definition ICON_FILE : str := py "📄 ".

(** The loop [for i, child in enumerate(children)] of the nested function
    [build_tree], from position [i] on; [count] is [len(children)] and
    [recurse] the recursive call. *)
Fixpoint tree_lines (recurse : str -> str -> bool -> option (list str))
    (structure : structure_t) (node prefix : str) (is_last : bool)
    (count : Z) (i : nat) (cs : list str) : option (list str) :=
  match cs with
  | [] => Some []
  | child :: cs' =>
      let child_is_last := (Z.of_nat i =? count - 1) in
      let child_prefix :=
        prefix ++ (if is_last then py "    " else py "│   ") in
      let child_path :=
        if negb (str_eqb node [DOT]) then node ++ [SLASH] ++ child
        else child in
      let is_dir :=
        structure_has structure child_path || has_char SLASH child in
      let icon := if is_dir then ICON_DIR else ICON_FILE in
      let line :=
        if str_eqb node [DOT] then icon ++ child
        else prefix ++ (if is_last then py "└── " else py "├── ")
                    ++ icon ++ child in
      match (if is_dir then recurse child_path child_prefix child_is_last
             else Some []) with
      | None => None
      | Some below =>
          match tree_lines recurse structure node prefix is_last count
                           (S i) cs' with
          | None => None
          | Some after => Some (line :: below ++ after)
          end
      end
  end.

(** The nested function [build_tree(node, prefix, is_last)]: the lines it
    appends, or [None] when the recursion does not end within [depth]
    calls. *)
Fixpoint build_tree (depth : nat) (structure : structure_t)
    (node prefix : str) (is_last : bool) : option (list str) :=
  match depth with
  | O => None
  | S depth' =>
      let children := sorted (children_of structure node) in
      tree_lines (build_tree depth' structure) structure node prefix is_last
                 (len children) O children
  end.

(** The loop that starts the rendering at the root. *)
Fixpoint render_root (structure : structure_t) (cs : list str)
  : option (list str) :=
  match cs with
  | [] => Some []
  | child :: cs' =>
      let child_path := child in
      let is_dir :=
        structure_has structure child_path || has_char SLASH child_path in
      let icon := if is_dir then ICON_DIR else ICON_FILE in
      match (if is_dir
             then build_tree (S (List.length structure)) structure child_path
                             [] false
             else Some []) with
      | None => None
      | Some below =>
          match render_root structure cs' with
          | None => None
          | Some after => Some ((icon ++ child) :: below ++ after)
          end
      end
  end.

(** The rendering of the tree from the relative parts of the collected
    files. *)
Definition render_tree (files : list (list str)) : result str :=
  let structure := fold_left register_file files [] in
  if structure_has structure [DOT] then
    match render_root structure (sorted (children_of structure [DOT])) with
    | Some lines => Return (join [NL] lines)
    | None => Raise RecursionError
    end
  else Return (join [NL] []).

(** [build_directory_tree()] *)
Definition build_directory_tree (b : ContextBuilder) (fs : FileSystem)
  : result str :=
  render_tree (map (relative_parts b) (_collect_all_files b fs)).

(** *** prioritize_files *)

(** The order of the sort key [(-x[0], x[1])] on pairs
    [(priority.value, file_str)]. *)
Definition key_lt (x y : Z * str) : bool :=
  (- fst x <? - fst y) || ((- fst x =? - fst y) && str_lt (snd x) (snd y)).

(** [prioritize_files(file_paths)] *)
Definition prioritize_files (file_paths : list str) : list str :=
  let files_with_priority :=
    map (fun file_str =>
           let file_path := path_of_str file_str in
           let priority := detect_file_priority file_path in
           (priority_value priority, file_str)) file_paths in
  map snd (py_sort key_lt files_with_priority).

(** [_read_file(file_path)] *)
Definition _read_file (fs : FileSystem) (file_path : Path) : option str :=
  read_text fs file_path.

(** [p / s] for a string [s] *)
Definition path_join (p : Path) (s : str) : Path :=
  let q := path_of_str s in
  match anchor q with
  | [] => {| anchor := anchor p; parts := parts p ++ parts q |}
  | _ :: _ => q
  end.

(** [format_file_entry(file_info)] *)
Definition format_file_entry (file_info : FileInfo) : str :=
  let header := [ICON_FILE ++ relative_path file_info] in
  let plural (count : Z) (many one : str) : str :=
    if count mod 10 >? 1 then many else one in
  let stats_parts :=
    match analysis file_info with
    | Some a =>
        (match imports a with
         | [] => []
         | _ :: _ =>
             let count := len (imports a) in
             [str_of_Z count ++ py " импорт" ++ plural count (py "ов") []]
         end)
        ++ (match classes a with
            | [] => []
            | _ :: _ =>
                let count := len (classes a) in
                [str_of_Z count ++ py " класс" ++ plural count (py "ов") []]
            end)
        ++ (match functions a with
            | [] => []
            | _ :: _ =>
                let count := len (functions a) in
                [str_of_Z count ++ py " функци"
                   ++ plural count (py "й") (py "я")]
            end)
        ++ (if line_count a =? 0 then []
            else [str_of_Z (line_count a) ++ py " строк"])
    | None => []
    end in
  let stats :=
    match stats_parts with
    | [] => []
    | _ :: _ => [py "╰─ " ++ join (py ", ") stats_parts]
    end in
  let body :=
    match strip (content file_info) with
    | [] => []
    | _ :: _ =>
        map (fun line => py "   " ++ line) (split_lines (content file_info))
    end in
  join [NL] (header ++ stats ++ body).

Definition BANNER : str := repeat_char 61%N 40.
Definition RULE : str := [NL] ++ repeat_char 45%N 40 ++ [NL].

Definition FOOTER : str :=
  [NL] ++
  join [NL] (map py
    ["Ты видишь структуру и содержимое проекта. Используй эту информацию для:";
     "1. Понимания архитектуры и зависимостей";
     "2. Анализа существующего кода";
     "3. Генерации кода, который интегрируется с проектом";
     EmptyString;
     "Обрати внимание на:";
     "• Структуру проекта (дерево вверху)";
     "• Приоритетные файлы (идут первыми)";
     "• Анализ Python файлов (импорты, классы, функции)";
     EmptyString;
     "При генерации кода:";
     "1. Следуй существующим паттернам";
     "2. Используй уже импортированные модули";
     "3. Поддерживай стиль кода проекта";
     "4. Учитывай ограничения проекта";
     EmptyString;
     "Файлы отсортированы по важности. Начни с первых."]%string)
  ++ [NL].

(** [str(e)] in the message of the tree section. *)
Definition exn_message (e : exn) : str :=
  match e with
  | RecursionError => py "maximum recursion depth exceeded"
  | _ => []
  end.

Section Build.

Variable grammar : str -> result node.
Variable ast_unparse : expr -> result str.

Variable b : ContextBuilder.
Variable fs : FileSystem.

(** The body of the loop over the prioritized files, for the file at
    position [i] (from 1) of [total]: the parts it appends. *)
Definition file_parts (total : Z) (i : Z) (file_str : str)
  : result (list str) :=
  let file_path := path_join (root b) file_str in
  match _read_file fs file_path with
  | Some ((_ :: _) as content) =>
      analysis <-
        (if str_eqb (path_suffix file_path) (py ".py")
         then a <- analyze grammar ast_unparse content ;; Return (Some a)
         else Return None) ;;
      let truncated := truncate_content content 100 5000 in
      let file_info :=
        {| path := file_path; content := truncated;
           relative_path := file_str;
           priority := detect_file_priority file_path;
           analysis := analysis |} in
      let formatted := format_file_entry file_info in
      Return (formatted :: (if i <? total then [RULE] else []))
  | Some [] | None => Return []
  end.

Fixpoint files_loop (total : Z) (i : Z) (prioritized : list str)
  : result (list str) :=
  match prioritized with
  | [] => Return []
  | file_str :: rest =>
      here <- file_parts total i file_str ;;
      after <- files_loop total (i + 1) rest ;;
      Return (here ++ after)
  end.

(** The file-content parts of [build()], after the section banner. *)
Definition content_parts : result (list str) :=
  let all_files := _collect_all_files b fs in
  match all_files with
  | [] => Return [py "❌ Файлы не найдены"]
  | _ :: _ =>
      let file_strings :=
        map (fun f => path_str {| anchor := [];
                                  parts := relative_parts b f |}) all_files in
      let prioritized := prioritize_files file_strings in
      let max_files := 50 in
      let notice :=
        if len prioritized >? max_files
        then [py "📊 Показано " ++ str_of_Z max_files ++ py " из "
                ++ str_of_Z (len prioritized)
                ++ py " файлов (остальные скрыты)" ++ [NL]]
        else [] in
      let prioritized :=
        if len prioritized >? max_files then slice_to prioritized max_files
        else prioritized in
      entries <- files_loop (len prioritized) 1 prioritized ;;
      Return (notice ++ entries)
  end.

(** [build()] *)
Definition build : result str :=
  let header :=
    [BANNER;
     py "КОНТЕКСТ ПРОЕКТА: " ++ path_name (root b);
     py "Собрано: ContextBuilder";
     BANNER] in
  let tree :=
    [[NL] ++ py "🌳 СТРУКТУРА ПРОЕКТА:" ++ [NL];
     match build_directory_tree b fs with
     | Return tree => tree
     | Raise e => py "⚠️ Не удалось построить дерево: " ++ exn_message e
     end] in
  let section :=
    [[NL] ++ BANNER; py "📁 СОДЕРЖАНИЕ ФАЙЛОВ:"; BANNER ++ [NL]] in
  files <- content_parts ;;
  let footer :=
    [[NL] ++ BANNER; py "🤖 КОНТЕКСТ ДЛЯ ИИ:"; BANNER; FOOTER] in
  Return (join [NL] (header ++ tree ++ section ++ files ++ footer)).

End Build.

(** The pattern matcher as the specification words it: a pattern with a
    wildcard character, [*] or [?], is matched as a glob. *)
Definition matches_spec (name pattern : str) : bool :=
  if str_eqb pattern name then true
  else if has_char STAR pattern || has_char QUESTION pattern
  then fnmatch name pattern
  else if startswith pattern [DOT] then endswith name pattern
  else false.

(** The directories strictly between the root and a file under it: the
    ancestors the walk has to descend through to reach the file. *)
Definition ancestors_below_root (b : ContextBuilder) (file_path : Path)
  : list Path :=
  let n := List.length (parts (root b)) in
  map (fun k => {| anchor := anchor file_path;
                   parts := firstn k (parts file_path) |})
      (seq (S n) (List.length (parts file_path) - S n)).

(** A small project: a source file two levels down, a cache directory next
    to it holding a file that no rule excludes, and a repository
    directory. *)
Definition sample_fs : FileSystem :=
  {| listing :=
       [File (py "README.md");
        Dir (py ".git") [File (py "config")];
        Dir (py "src")
          [Dir (py "core")
             [File (py "node.py");
              Dir (py "__pycache__") [File (py "notes.txt")]]]];
     read_text := fun _ => Some (py "class Node: pass") |}.

Definition sample_builder : ContextBuilder :=
  new_builder (path_of_str (py "/home/user/project")).

(** The tier value of a path string, and the order the prioritizer is to
    produce: descending tier, then ascending path. *)
Definition tier (file_str : str) : Z :=
  priority_value (detect_file_priority (path_of_str file_str)).

Definition in_priority_order (a b : str) : Prop :=
  tier a > tier b \/ (tier a = tier b /\ str_compare a b <> Gt).

(** Two path strings with the same sort key. *)
Definition same_key (a b : str) : bool :=
  (tier a =? tier b) && str_eqb a b.

(** Texts for the truncation examples. *)
Definition text (lines : list string) : str := join [NL] (map py lines).

Definition three_lines : str := text ["aaaa"; "bbbb"; "cccc"]%string.

Definition five_lines : str := text ["l1"; "l2"; "l3"; "l4"; "l5"]%string.

(** A project whose only files are two sources in [src]. *)
Definition nested_fs : FileSystem :=
  {| listing := [Dir (py "src") [File (py "b.py"); File (py "a.py")]];
     read_text := fun _ => Some (py "pass") |}.

(** A project with an empty file in [src] and an empty file at the root. *)
Definition empty_files_fs : FileSystem :=
  {| listing := [File (py "notes.txt"); Dir (py "src") [File (py "empty.py")]];
     read_text := fun _ => Some [] |}.

(** The file system in which every empty file is unreadable instead. *)
Definition hide_empty (fs : FileSystem) : FileSystem :=
  {| listing := listing fs;
     read_text := fun p =>
                    match read_text fs p with
                    | Some [] => None
                    | r => r
                    end |}.

(** A grammar that rejects every source, and an [ast.unparse] that is
    never reached with it. *)
Definition reject_all (source : str) : result node := Raise SyntaxError.

Definition unparse_fails (e : expr) : result str := Raise RecursionError.

(** The sample project checked out in a directory named [build]. *)
Definition build_dir_builder : ContextBuilder :=
  new_builder (path_of_str (py "/home/user/build")).

(** A text without the characters the glob matcher treats as special. *)
Definition plain (s : str) : bool :=
  forallb (fun c => negb (char_eqb c STAR || char_eqb c QUESTION
                          || char_eqb c LBRACKET)) s.

(** The name sets of [detect_file_priority]. *)
Definition critical_names : list str :=
  map py ["pyproject.toml"; "README.md"; "README.rst"; "LICENSE";
          "MANIFEST.in"]%string.

Definition config_names : list str :=
  map py ["setup.py"; "setup.cfg"; "requirements.txt"; "Pipfile";
          "docker-compose.yml"; ".env.example"; ".gitignore";
          ".dockerignore"; ".pre-commit-config.yaml"]%string.

Definition doc_suffixes : list str := map py [".md"; ".rst"; ".txt"]%string.

Definition doc_dirs : list str := map py ["docs"; "documentation"]%string.

(** [file_at entries rel]: the directory with the listing [entries] holds
    a file at the relative path [rel]. *)
Inductive file_at : list entry -> list str -> Prop :=
| file_here (entries : list entry) (file : str) :
    In (File file) entries -> file_at entries [file]
| file_below (entries : list entry) (dn : str) (sub : list entry)
    (rel : list str) :
    In (Dir dn sub) entries -> file_at sub rel -> file_at entries (dn :: rel).

(** The order of the sort of [prioritize_files] on path strings. *)
Definition path_key_lt (a b : str) : bool :=
  key_lt (tier a, a) (tier b, b).

(** A name a directory listing can hold: not empty, not [.], without a
    slash. *)
Definition valid_name (name : str) : bool :=
  negb (str_eqb name []) && negb (str_eqb name [DOT])
  && negb (has_char SLASH name).

(** All the names in a directory tree. *)
Fixpoint names_in (e : entry) : list str :=
  match e with
  | File name => [name]
  | Dir name entries => name :: flat_map names_in entries
  end.

(** The names of a listing. *)
Definition listing_names (entries : list entry) : list str :=
  flat_map names_in entries.

(** The string [build] makes of a collected path, relative to the root. *)
Definition relative_str (b : ContextBuilder) (file_path : Path) : str :=
  path_str {| anchor := []; parts := relative_parts b file_path |}.

(** A file entry without a summary. *)
Definition plain_entry (relative_path content : str) : FileInfo :=
  {| path := path_of_str relative_path; content := content;
     relative_path := relative_path;
     priority := detect_file_priority (path_of_str relative_path);
     analysis := None |}.

(** * Properties *)

(** ** Strings *)

Lemma str_eqb_eq (a b : str) : str_eqb a b = true <-> a = b.
Proof.
  revert b; induction a as [|x a IH]; intros [|y b]; simpl;
    try (split; [discriminate | intros H; discriminate H]);
    try (split; reflexivity).
  unfold char_eqb; rewrite andb_true_iff, N.eqb_eq, IH.
  split; [intros [-> ->]; reflexivity | intros H; inversion H; auto].
Qed.

Lemma str_eqb_refl (a : str) : str_eqb a a = true.
Proof. apply str_eqb_eq; reflexivity. Qed.

Lemma str_eqb_neq (a b : str) : str_eqb a b = false <-> a <> b.
Proof.
  rewrite <- str_eqb_eq; destruct (str_eqb a b); split; congruence.
Qed.

Lemma mem_In (x : str) (l : list str) : mem x l = true <-> In x l.
Proof.
  unfold mem; rewrite existsb_exists; split.
  - intros [y [Hy He]]; apply str_eqb_eq in He; subst; assumption.
  - intros H; exists x; split; [assumption | apply str_eqb_refl].
Qed.

Lemma has_char_In (c : char) (s : str) : has_char c s = true <-> In c s.
Proof.
  unfold has_char; rewrite existsb_exists; split.
  - intros [y [Hy He]]; apply N.eqb_eq in He; subst; assumption.
  - intros H; exists c; split; [assumption | apply N.eqb_refl].
Qed.

Lemma startswith_prefix (s p : str) :
  startswith s p = true <-> exists rest, s = p ++ rest.
Proof.
  revert s; induction p as [|c p IH]; intros s; simpl.
  - split; [intros _; exists s; reflexivity | destruct s; reflexivity].
  - destruct s as [|d s].
    + split; [discriminate | intros [rest H]; discriminate H].
    + unfold char_eqb; rewrite andb_true_iff, N.eqb_eq, IH; split.
      * intros [-> [rest ->]]; exists rest; reflexivity.
      * intros [rest H]; inversion H; subst; split; [reflexivity|].
        exists rest; reflexivity.
Qed.

Lemma endswith_suffix (s p : str) :
  endswith s p = true <-> exists front, s = front ++ p.
Proof.
  unfold endswith; rewrite startswith_prefix; split.
  - intros [rest H]; exists (rev rest).
    rewrite <- (rev_involutive s), H, rev_app_distr, rev_involutive.
    reflexivity.
  - intros [front ->]; exists (rev front); apply rev_app_distr.
Qed.

(** ** Content truncator: the 500-line scenario *)

(** C4 fails on the code: on the 500 lines ["# Line 0"] to ["# Line 499"]
    with bounds 50 and 1000, the output contains ["# Line 0"] and the
    truncation marker and has 53 lines, at most 60, but it also contains
    ["# Line 499"]: the line-cut text has 565 characters, fewer than 1000,
    so the character cut is not reached and the last 25 lines stay, against
    the assertion of the test [test_7_file_truncation] on this input. *)
Theorem truncate_content_500_lines :
  contains (py "# Line 0") (truncate_content (numbered_lines 500) 50 1000)
    = true /\
  contains (py "# Line 499") (truncate_content (numbered_lines 500) 50 1000)
    = true /\
  contains (py "[... файл обрезан")
           (truncate_content (numbered_lines 500) 50 1000) = true /\
  len (truncate_content (numbered_lines 500) 50 1000) = 565 /\
  len (split_lines (truncate_content (numbered_lines 500) 50 1000)) = 53 /\
  len (split_lines (truncate_content (numbered_lines 500) 50 1000)) <= 60.
Proof. vm_compute. repeat split; congruence. Qed.

(** The four conditions the truncation test asserts on this input do not
    hold together: the output does contain ["# Line 499"]. *)
Lemma truncate_content_500_lines_last_line_kept :
  ~ (contains (py "# Line 0") (truncate_content (numbered_lines 500) 50 1000)
       = true /\
     contains (py "# Line 499")
              (truncate_content (numbered_lines 500) 50 1000) = false /\
     contains (py "[... файл обрезан")
              (truncate_content (numbered_lines 500) 50 1000) = true /\
     len (split_lines (truncate_content (numbered_lines 500) 50 1000)) <= 60).
Proof. vm_compute. intros [_ [H _]]. discriminate H. Qed.

(** ** Priority classifier *)

(** The classifier scenarios of the specification. *)
Lemma detect_file_priority_scenarios :
  map (fun s => detect_file_priority (path_of_str (py s)))
      ["pyproject.toml"; "src/core/engine.py"; "tests/test_engine.py";
       "docs/guide.md"; "random.xyz"]%string
  = [CRITICAL; HIGH; MEDIUM; LOW; NOISE].
Proof. vm_compute. reflexivity. Qed.

(** C2 fails on the code: [src/engine.py] has the suffix [.py], the segment
    [src] and no ["test"], yet it is classified NOISE, because the segment
    test looks for ["/src/"] with both slashes and a relative path does not
    start with a slash. *)
Theorem detect_file_priority_leading_src_segment :
  path_suffix (path_of_str (py "src/engine.py")) = py ".py" /\
  In (py "src") (parts (path_of_str (py "src/engine.py"))) /\
  contains (py "test") (path_str (path_of_str (py "src/engine.py"))) = false /\
  detect_file_priority (path_of_str (py "src/engine.py")) = NOISE.
Proof. vm_compute. repeat split; auto. Qed.

(** Where the code does answer HIGH for rule 3: the segment is found as
    the substring ["/src/"], ["/lib/"], ["/core/"], ["/main/"] or
    ["/app/"] of the path string. *)
Lemma detect_file_priority_core_substring (p : Path) :
  mem (path_name p)
      (map py ["pyproject.toml"; "README.md"; "README.rst"; "LICENSE";
               "MANIFEST.in"]%string) = false ->
  path_suffix p = py ".py" ->
  existsb (fun part => contains part (path_str p))
          (map py ["/src/"; "/lib/"; "/core/"; "/main/"; "/app/"]%string)
    = true ->
  contains (py "test") (path_name p) = false ->
  contains (py "test") (path_str p) = false ->
  detect_file_priority p = HIGH.
Proof.
  intros Hcrit Hsuf Hseg Hname Hpath.
  unfold detect_file_priority.
  rewrite Hcrit, Hsuf, Hseg, Hname, Hpath, str_eqb_refl.
  match goal with
  | |- (if ?c then HIGH else _) = HIGH => destruct c; reflexivity
  end.
Qed.

Lemma detect_file_priority_core_substring_witness :
  detect_file_priority (path_of_str (py "src/core/engine.py")) = HIGH.
Proof.
  apply detect_file_priority_core_substring; vm_compute; reflexivity.
Defined.

(** ** Pattern matcher *)

(** C5 as stated fails: the pattern ["a?c"] has a wildcard and matches
    ["abc"] as a glob, but [match_pattern] answers false, since only [*]
    sends a pattern to the glob matcher. *)
Lemma match_pattern_question_mark :
  has_char QUESTION (py "a?c") = true /\
  fnmatch (py "abc") (py "a?c") = true /\
  matches_spec (py "abc") (py "a?c") = true /\
  match_pattern (py "abc") (py "a?c") = false.
Proof. vm_compute. repeat split. Qed.

(** C5, as amended: [match_pattern] returns true on exact equality;
    otherwise, if the pattern contains [*], the result of the glob match of
    the full name; otherwise, if the pattern starts with a dot, whether the
    name ends with the pattern; otherwise false.  It is a total function. *)
Theorem match_pattern_cases (filename pattern : str) :
  (pattern = filename -> match_pattern filename pattern = true) /\
  (pattern <> filename -> In STAR pattern ->
   match_pattern filename pattern = fnmatch filename pattern) /\
  (pattern <> filename -> ~ In STAR pattern ->
   (exists rest, pattern = DOT :: rest) ->
   (match_pattern filename pattern = true <->
    exists front, filename = front ++ pattern)) /\
  (pattern <> filename -> ~ In STAR pattern ->
   ~ (exists rest, pattern = DOT :: rest) ->
   match_pattern filename pattern = false).
Proof.
  unfold match_pattern.
  destruct (str_eqb pattern filename) eqn:He.
  { apply str_eqb_eq in He.
    split; [reflexivity |].
    split; [| split]; intros Hne; contradiction. }
  apply str_eqb_neq in He.
  split; [intros H; contradiction |].
  destruct (has_char STAR pattern) eqn:Hs.
  { apply has_char_In in Hs.
    split; [reflexivity |].
    split; intros _ Hn; contradiction. }
  assert (Hn : ~ In STAR pattern).
  { intros H; apply has_char_In in H; congruence. }
  split; [intros _ H; contradiction |].
  destruct (startswith pattern [DOT]) eqn:Hd.
  - apply startswith_prefix in Hd.
    split.
    + intros _ _ _; apply endswith_suffix.
    + intros _ _ H; contradiction.
  - assert (Hnd : ~ exists rest, pattern = DOT :: rest).
    { intros [rest Hr].
      assert (startswith pattern [DOT] = true)
        by (apply startswith_prefix; exists rest; exact Hr).
      congruence. }
    split.
    + intros _ _ H; contradiction.
    + reflexivity.
Qed.

(** A pattern of each kind. *)
Lemma match_pattern_cases_witness :
  match_pattern (py "env") (py "env") = true /\
  match_pattern (py "pkg.egg-info") (py "*.egg-info")
    = fnmatch (py "pkg.egg-info") (py "*.egg-info") /\
  match_pattern (py "run.log") (py ".log") = true /\
  match_pattern (py "venv") (py "env") = false.
Proof.
  split; [| split; [| split]].
  - apply (proj1 (match_pattern_cases (py "env") (py "env"))).
    reflexivity.
  - apply (proj1 (proj2 (match_pattern_cases (py "pkg.egg-info")
                                             (py "*.egg-info")))).
    + vm_compute; discriminate.
    + vm_compute; auto.
  - apply (proj1 (proj2 (proj2 (match_pattern_cases (py "run.log")
                                                    (py ".log"))))).
    + vm_compute; discriminate.
    + vm_compute; intros [H | [H | [H | [H | []]]]]; discriminate H.
    + exists (py "log"); reflexivity.
    + exists (py "run"); reflexivity.
  - apply (proj2 (proj2 (proj2 (match_pattern_cases (py "venv")
                                                    (py "env"))))).
    + vm_compute; discriminate.
    + vm_compute; intros [H | [H | [H | []]]]; discriminate H.
    + vm_compute; intros [rest H]; discriminate H.
Defined.

(** Parsing a pattern consumes a character in every step, so the length
    of the pattern is fuel enough. *)
Lemma until_close_shorter (s body rest : str) :
  until_close s = Some (body, rest) ->
  (List.length rest < List.length s)%nat.
Proof.
  revert body rest; induction s as [|c s IH]; intros body rest; simpl;
    [discriminate |].
  destruct (char_eqb c RBRACKET).
  - intros H; inversion H; subst; lia.
  - destruct (until_close s) as [[body' rest'] |]; [| discriminate].
    intros H; inversion H; subst.
    specialize (IH _ _ eq_refl); lia.
Qed.

Lemma bracket_shorter (s body rest : str) (neg : bool) :
  bracket s = Some (neg, body, rest) ->
  (List.length rest < List.length s)%nat.
Proof.
  unfold bracket.
  destruct s as [|c s]; simpl; [discriminate |].
  destruct (char_eqb c BANG).
  - destruct s as [|d s]; simpl; [discriminate |].
    destruct (char_eqb d RBRACKET).
    + destruct (until_close s) as [[body' rest'] |] eqn:E; [| discriminate].
      intros H; inversion H; subst.
      apply until_close_shorter in E; simpl; lia.
    + destruct (until_close (d :: s)) as [[body' rest'] |] eqn:E;
        [| discriminate].
      intros H; inversion H; subst.
      apply until_close_shorter in E; simpl in *; lia.
  - destruct (char_eqb c RBRACKET).
    + destruct (until_close s) as [[body' rest'] |] eqn:E; [| discriminate].
      intros H; inversion H; subst.
      apply until_close_shorter in E; simpl; lia.
    + destruct (until_close (c :: s)) as [[body' rest'] |] eqn:E;
        [| discriminate].
      intros H; inversion H; subst.
      apply until_close_shorter in E; simpl in *; lia.
Qed.

Lemma glob_parse_fuel (fuel fuel' : nat) (pat : str) :
  (List.length pat <= fuel)%nat -> (List.length pat <= fuel')%nat ->
  glob_parse fuel pat = glob_parse fuel' pat.
Proof.
  revert fuel' pat; induction fuel as [|fuel IH]; intros fuel' pat H1 H2.
  - destruct pat; [| simpl in H1; lia].
    destruct fuel'; reflexivity.
  - destruct pat as [|c pat]; [destruct fuel'; reflexivity |].
    destruct fuel' as [|fuel']; [simpl in H2; lia |].
    simpl in *.
    destruct (char_eqb c STAR); [f_equal; apply IH; lia |].
    destruct (char_eqb c QUESTION); [f_equal; apply IH; lia |].
    destruct (char_eqb c LBRACKET); [| f_equal; apply IH; lia].
    destruct (bracket pat) as [[[neg body] rest] |] eqn:E;
      [| f_equal; apply IH; lia].
    apply bracket_shorter in E.
    f_equal; apply IH; lia.
Qed.

Lemma glob_parse_fuel_witness :
  glob_parse 20 (py "[a-c]?*.py") = glob_parse 10 (py "[a-c]?*.py").
Proof. apply glob_parse_fuel; vm_compute; lia. Defined.

(** ** Exclusion policy *)

(** C6: a file path is excluded exactly when its base name matches a
    pattern of the excluded file names (through [match_pattern]), or
    glob-matches a pattern of the excluded file patterns, or its suffix
    equals an excluded extension, or a custom filter answers true. *)
Theorem should_exclude_file_iff (b : ContextBuilder) (p : Path) :
  _should_exclude b false p = true <->
  (exists pattern, In pattern (files (exclusions b)) /\
                   match_pattern (path_name p) pattern = true) \/
  (exists pattern, In pattern (file_patterns (exclusions b)) /\
                   fnmatch (path_name p) pattern = true) \/
  (exists ext, In ext (extensions (exclusions b)) /\ path_suffix p = ext) \/
  (exists filter_info, In filter_info (custom_filters b) /\
                       snd filter_info p = true).
Proof.
  unfold _should_exclude.
  rewrite <- !existsb_exists.
  assert (Hext : (exists ext, In ext (extensions (exclusions b)) /\
                              path_suffix p = ext) <->
                 existsb (fun ext => str_eqb (path_suffix p) ext)
                         (extensions (exclusions b)) = true).
  { rewrite existsb_exists; split; intros [ext [Hin H]]; exists ext;
      (split; [assumption | apply str_eqb_eq; assumption]). }
  rewrite Hext.
  destruct (existsb _ (files (exclusions b))); [tauto |].
  destruct (existsb _ (file_patterns (exclusions b))); [tauto |].
  destruct (existsb _ (extensions (exclusions b))); [tauto |].
  destruct (existsb _ (custom_filters b)); [tauto |].
  intuition discriminate.
Qed.

(** The directory case: the directory names and the custom filters. *)
Lemma should_exclude_dir_iff (b : ContextBuilder) (p : Path) :
  _should_exclude b true p = true <->
  (exists pattern, In pattern (dirs (exclusions b)) /\
                   match_pattern (path_name p) pattern = true) \/
  (exists filter_info, In filter_info (custom_filters b) /\
                       snd filter_info p = true).
Proof.
  unfold _should_exclude.
  rewrite <- !existsb_exists.
  destruct (existsb _ (dirs (exclusions b))); [tauto |].
  destruct (existsb _ (custom_filters b)); [tauto |].
  intuition discriminate.
Qed.

(** The suffix rule compares [path.suffix], the text from the last dot, so
    a two-dot extension of the default set never equals it. *)
Lemma should_exclude_examples :
  map (fun s => _should_exclude sample_builder false (path_of_str (py s)))
      ["a/run.log"; "a/x.pyc"; "a/notes.bak"; "a/main.py"; "a/app.min.js";
       "a/app.min.txt"]%string
  = [true; true; true; false; true; false] /\
  path_suffix (path_of_str (py "a/app.min.js")) = py ".js".
Proof. vm_compute. split; reflexivity. Qed.

(** ** Tree walker *)

(** Induction over a directory tree, with the hypothesis for every entry
    of a directory. *)
Lemma entry_induction (P : entry -> Prop) :
  (forall name, P (File name)) ->
  (forall name entries, Forall P entries -> P (Dir name entries)) ->
  forall e, P e.
Proof.
  intros P_File P_Dir.
  fix IH 1.
  intros [name | name entries].
  - apply P_File.
  - apply P_Dir.
    induction entries as [|x entries IHentries]; constructor.
    + apply IH.
    + exact IHentries.
Qed.

Lemma walk_collect_Dir (b : ContextBuilder) (root_path : Path) (name : str)
    (entries : list entry) :
  walk_collect b root_path (Dir name entries)
  = flat_map (fun f =>
                match f with
                | File file =>
                    if _should_exclude b false (path_child root_path file)
                    then [] else [path_child root_path file]
                | Dir _ _ => []
                end) entries
    ++ flat_map (fun d =>
                   match d with
                   | Dir dn _ =>
                       if _should_exclude b true (path_child root_path dn)
                       then []
                       else walk_collect b (path_child root_path dn) d
                   | File _ => []
                   end) entries.
Proof. reflexivity. Qed.

(** Every path the walk returns from a directory lies below it; the
    directories on the way down were each tested and kept, and so was
    the file. *)
Lemma walk_collect_descends (b : ContextBuilder) (e : entry) :
  forall root_path p,
    In p (walk_collect b root_path e) ->
    exists rel,
      rel <> [] /\
      p = {| anchor := anchor root_path; parts := parts root_path ++ rel |} /\
      _should_exclude b false p = false /\
      forall k, (0 < k < List.length rel)%nat ->
        _should_exclude b true
          {| anchor := anchor root_path;
             parts := parts root_path ++ firstn k rel |} = false.
Proof.
  induction e as [name | name entries IH] using entry_induction;
    intros root_path p Hin.
  - destruct Hin.
  - rewrite walk_collect_Dir in Hin.
    apply in_app_or in Hin; destruct Hin as [Hin | Hin];
      apply in_flat_map in Hin; destruct Hin as [x [Hx Hin]].
    + destruct x as [file | dn sub]; [| contradiction].
      destruct (_should_exclude b false (path_child root_path file)) eqn:He;
        [destruct Hin |].
      destruct Hin as [<- | []].
      exists [file]; repeat split; try assumption; try discriminate.
      simpl; intros k Hk; lia.
    + destruct x as [file | dn sub]; [contradiction |].
      destruct (_should_exclude b true (path_child root_path dn)) eqn:He;
        [destruct Hin |].
      rewrite Forall_forall in IH.
      destruct (IH _ Hx _ _ Hin) as [rel [Hne [Hp [Hfile Hdirs]]]].
      exists (dn :: rel); repeat split; try assumption; try discriminate.
      * rewrite Hp; simpl; rewrite <- app_assoc; reflexivity.
      * intros k Hk; simpl in Hk.
        destruct k as [|k]; [lia |].
        destruct k as [|k].
        { exact He. }
        specialize (Hdirs (S k) ltac:(lia)).
        simpl in Hdirs; rewrite <- app_assoc in Hdirs.
        exact Hdirs.
Qed.

(** C3: no file with an excluded ancestor directory below the root is in
    the result of [_collect_all_files], whether or not a rule excludes the
    file itself: every directory between the root and a collected file
    passed the exclusion test before the walk went into it. *)
Theorem collect_all_files_prunes (b : ContextBuilder) (fs : FileSystem)
    (file_path ancestor : Path) :
  In file_path (_collect_all_files b fs) ->
  In ancestor (ancestors_below_root b file_path) ->
  _should_exclude b true ancestor = false.
Proof.
  unfold _collect_all_files, ancestors_below_root.
  intros Hin Hanc.
  destruct (walk_collect_descends _ _ _ _ Hin) as [rel [Hne [Hp [_ Hdirs]]]].
  apply in_map_iff in Hanc; destruct Hanc as [k [<- Hk]].
  apply in_seq in Hk.
  rewrite Hp in *; simpl in *.
  rewrite length_app in Hk.
  specialize (Hdirs (k - List.length (parts (root b)))%nat ltac:(lia)).
  rewrite firstn_app, firstn_all2 by lia.
  exact Hdirs.
Qed.

(** The walk over the sample project: the file under [__pycache__] and the
    one under [.git] are absent although no file rule excludes them, and
    the ancestors of the collected source file are not excluded. *)
Lemma collect_all_files_sample :
  map path_str (_collect_all_files sample_builder sample_fs)
  = map py ["/home/user/project/README.md";
            "/home/user/project/src/core/node.py"]%string /\
  _should_exclude sample_builder false
    (path_of_str (py "/home/user/project/src/core/__pycache__/notes.txt"))
  = false /\
  _should_exclude sample_builder true
    (path_of_str (py "/home/user/project/src/core/__pycache__")) = true /\
  map path_str
      (ancestors_below_root sample_builder
         (path_of_str (py "/home/user/project/src/core/node.py")))
  = map py ["/home/user/project/src"; "/home/user/project/src/core"]%string.
Proof. vm_compute. repeat split; reflexivity. Qed.

(** The root is where the walk starts and is not put to the exclusion
    test: in a checkout named [build], a name of the excluded directories,
    the files are collected all the same. *)
Lemma collect_all_files_root_not_tested :
  _should_exclude build_dir_builder true (root build_dir_builder) = true /\
  map path_str (_collect_all_files build_dir_builder sample_fs)
  = map py ["/home/user/build/README.md";
            "/home/user/build/src/core/node.py"]%string.
Proof. vm_compute. split; reflexivity. Qed.

Lemma collect_all_files_prunes_witness :
  _should_exclude sample_builder true
    (path_of_str (py "/home/user/project/src/core")) = false.
Proof.
  apply (@collect_all_files_prunes sample_builder sample_fs
           (path_of_str (py "/home/user/project/src/core/node.py"))).
  - vm_compute; auto.
  - vm_compute; auto.
Defined.

(** ** Sorting *)

Lemma str_compare_eq (a b : str) : str_compare a b = Eq <-> a = b.
Proof.
  revert b; induction a as [|x a IH]; intros [|y b]; simpl;
    try (split; [reflexivity | reflexivity]);
    try (split; [discriminate | discriminate]).
  destruct (N.compare_spec x y) as [-> | Hlt | Hgt].
  - rewrite IH; split; [intros ->; reflexivity | intros H; inversion H; auto].
  - split; [discriminate | intros H; inversion H; subst; lia].
  - split; [discriminate | intros H; inversion H; subst; lia].
Qed.

Lemma str_compare_antisym (a b : str) :
  str_compare b a = CompOpp (str_compare a b).
Proof.
  revert b; induction a as [|x a IH]; intros [|y b]; simpl; try reflexivity.
  rewrite (N.compare_antisym x y).
  destruct (N.compare x y); simpl; auto.
Qed.

Lemma str_compare_trans (a b c : str) :
  str_compare a b = Lt -> str_compare b c = Lt -> str_compare a c = Lt.
Proof.
  revert b c; induction a as [|x a IH]; intros [|y b] [|z c]; simpl;
    try discriminate; try reflexivity.
  destruct (N.compare_spec x y) as [-> | Hxy | Hxy]; try discriminate.
  - destruct (N.compare_spec y z) as [-> | Hyz | Hyz]; try discriminate.
    + apply IH.
    + reflexivity.
  - intros _.
    destruct (N.compare_spec y z) as [-> | Hyz | Hyz]; try discriminate.
    + intros _.
      destruct (N.compare_spec x z) as [-> | H | H]; try lia; reflexivity.
    + intros _.
      destruct (N.compare_spec x z) as [-> | H | H]; try lia; reflexivity.
Qed.

Section SortFacts.

Variable A : Type.
Variable lt : A -> A -> bool.

Hypothesis lt_asym : forall x y, lt x y = true -> lt y x = false.
Hypothesis not_after_trans :
  forall x y z, not_after lt x y -> not_after lt y z -> not_after lt x z.

Lemma insert_sorted_perm (x : A) (l : list A) :
  Permutation (x :: l) (insert_sorted lt x l).
Proof.
  induction l as [|y l IH]; simpl; [reflexivity |].
  destruct (lt y x); [| reflexivity].
  rewrite perm_swap; apply perm_skip; exact IH.
Qed.

Lemma py_sort_perm (l : list A) : Permutation l (py_sort lt l).
Proof.
  induction l as [|x l IH]; simpl; [reflexivity |].
  rewrite <- insert_sorted_perm; apply perm_skip; exact IH.
Qed.

Lemma insert_sorted_hd (x y : A) (l : list A) :
  not_after lt y x -> HdRel (not_after lt) y l ->
  HdRel (not_after lt) y (insert_sorted lt x l).
Proof.
  intros Hyx Hl; destruct l as [|z l]; simpl.
  - constructor; exact Hyx.
  - destruct (lt z x); constructor; [| exact Hyx].
    inversion Hl; assumption.
Qed.

Lemma insert_sorted_sorted (x : A) (l : list A) :
  Sorted (not_after lt) l -> Sorted (not_after lt) (insert_sorted lt x l).
Proof.
  induction l as [|y l IH]; simpl; intros Hs.
  - repeat constructor.
  - inversion Hs as [| ? ? Hl Hhd]; subst.
    destruct (lt y x) eqn:Hlt.
    + constructor; [apply IH; exact Hl |].
      apply insert_sorted_hd; [| exact Hhd].
      apply lt_asym; exact Hlt.
    + constructor; [exact Hs |].
      constructor; exact Hlt.
Qed.

Lemma py_sort_sorted (l : list A) : StronglySorted (not_after lt) (py_sort lt l).
Proof.
  apply Sorted_StronglySorted; [exact not_after_trans |].
  induction l as [|x l IH]; simpl; [constructor |].
  apply insert_sorted_sorted; exact IH.
Qed.

(** Stability: the elements that a predicate [keep] selects come out in
    the order they went in, when no element that [keep] selects is
    strictly before or after another selected one. *)
Variable keep : A -> bool.
Hypothesis keep_unordered :
  forall x y, keep x = true -> keep y = true -> lt x y = false.

Lemma insert_sorted_stable (x : A) (l : list A) :
  filter keep (insert_sorted lt x l) = filter keep (x :: l).
Proof.
  induction l as [|y l IH]; simpl; [reflexivity |].
  destruct (lt y x) eqn:Hlt; [| reflexivity].
  simpl; rewrite IH; simpl.
  destruct (keep y) eqn:Hy, (keep x) eqn:Hx; try reflexivity.
  rewrite (keep_unordered Hy Hx) in Hlt; discriminate.
Qed.

Lemma py_sort_stable (l : list A) :
  filter keep (py_sort lt l) = filter keep l.
Proof.
  induction l as [|x l IH]; simpl; [reflexivity |].
  rewrite insert_sorted_stable; simpl; rewrite IH; reflexivity.
Qed.

End SortFacts.

Lemma py_sort_map (A B : Type) (f : A -> B) (lt : B -> B -> bool)
    (l : list A) :
  py_sort lt (map f l) = map f (py_sort (fun a b => lt (f a) (f b)) l).
Proof.
  induction l as [|x l IH]; simpl; [reflexivity |].
  rewrite IH; clear IH.
  induction (py_sort (fun a b => lt (f a) (f b)) l) as [|y l' IH];
    simpl; [reflexivity |].
  destruct (lt (f y) (f x)); simpl; [rewrite IH |]; reflexivity.
Qed.

(** ** File prioritizer *)

Lemma prioritize_files_py_sort (file_paths : list str) :
  prioritize_files file_paths
  = py_sort (fun a b => key_lt (tier a, a) (tier b, b)) file_paths.
Proof.
  unfold prioritize_files.
  change (map (fun file_str => (priority_value
                                  (detect_file_priority (path_of_str file_str)),
                                file_str)) file_paths)
    with (map (fun s => (tier s, s)) file_paths).
  rewrite py_sort_map, map_map; simpl.
  apply map_id.
Qed.

Lemma key_lt_false_iff (a b : str) :
  key_lt (tier b, b) (tier a, a) = false <-> in_priority_order a b.
Proof.
  unfold key_lt, in_priority_order, str_lt; simpl.
  rewrite (str_compare_antisym a b).
  destruct (Z.ltb_spec (- tier b) (- tier a)),
           (Z.eqb_spec (- tier b) (- tier a)),
           (str_compare a b); simpl; split; intros Hx;
    try discriminate; try reflexivity;
    try (left; lia);
    try (right; split; [lia | discriminate]);
    try (destruct Hx as [Hx | [Hx1 Hx2]]; first [lia | congruence]).
Qed.

Lemma in_priority_order_trans (a b c : str) :
  in_priority_order a b -> in_priority_order b c -> in_priority_order a c.
Proof.
  unfold in_priority_order.
  intros [H1 | [H1 C1]] [H2 | [H2 C2]]; try (left; lia).
  right; split; [lia |].
  intros Hgt.
  destruct (str_compare a b) eqn:Eab; try congruence;
    destruct (str_compare b c) eqn:Ebc; try congruence.
  - apply str_compare_eq in Eab, Ebc; subst.
    rewrite (proj2 (str_compare_eq c c) eq_refl) in Hgt; discriminate.
  - apply str_compare_eq in Eab; subst; congruence.
  - apply str_compare_eq in Ebc; subst; congruence.
  - rewrite (str_compare_trans _ _ _ Eab Ebc) in Hgt; discriminate.
Qed.

Lemma StronglySorted_impl (A : Type) (R S : A -> A -> Prop) (l : list A) :
  (forall x y, R x y -> S x y) -> StronglySorted R l -> StronglySorted S l.
Proof.
  intros HRS; induction 1 as [| x l Hl IH Hx]; constructor.
  - exact IH.
  - eapply Forall_impl; [| exact Hx]; intros y; apply HRS.
Qed.

(** C7: [prioritize_files] returns its input reordered (a permutation of
    it), sorted by the key (negated tier value, path string): descending
    tier first and, for two files of equal tier, ascending lexicographic
    order of their paths; and the sort is stable, files with the same key
    keeping their relative order. *)
Theorem prioritize_files_sorted (file_paths : list str) :
  Permutation file_paths (prioritize_files file_paths) /\
  StronglySorted in_priority_order (prioritize_files file_paths) /\
  forall x, filter (same_key x) (prioritize_files file_paths)
            = filter (same_key x) file_paths.
Proof.
  rewrite prioritize_files_py_sort.
  split; [apply py_sort_perm | split].
  - apply StronglySorted_impl
      with (R := not_after (fun a b => key_lt (tier a, a) (tier b, b))).
    + intros a b; apply key_lt_false_iff.
    + apply py_sort_sorted.
      * intros a b Hlt.
        destruct (key_lt (tier b, b) (tier a, a)) eqn:Hba; [| reflexivity].
        assert (Hab : in_priority_order b a).
        { apply key_lt_false_iff.
          destruct (key_lt (tier a, a) (tier b, b)) eqn:E; [| reflexivity].
          exfalso; clear Hlt.
          unfold key_lt, str_lt in *; simpl in *.
          rewrite (str_compare_antisym a b) in Hba.
          destruct (str_compare a b); simpl in *;
            rewrite ?andb_false_r, ?orb_false_r, ?andb_true_r in *;
            rewrite ?orb_true_iff, ?Z.ltb_lt, ?Z.eqb_eq in *; lia. }
        apply key_lt_false_iff in Hab; congruence.
      * intros a b c; unfold not_after.
        rewrite !key_lt_false_iff; apply in_priority_order_trans.
  - intros x; apply py_sort_stable.
    intros a b Ha Hb; unfold same_key in Ha, Hb.
    apply andb_true_iff in Ha, Hb.
    destruct Ha as [_ Ha], Hb as [_ Hb].
    apply str_eqb_eq in Ha, Hb; subst a b.
    apply key_lt_false_iff; right; split; [reflexivity |].
    rewrite (proj2 (str_compare_eq x x) eq_refl); discriminate.
Qed.

(** The prioritizer on the list of the test suite. *)
Lemma prioritize_files_sample :
  prioritize_files
    (map py ["docs/notes.md"; "src/__init__.py"; "src/core/node.py";
             "tests/test_node.py"; "pyproject.toml"; ".gitignore";
             "README.md"; "build/script.js"]%string)
  = map py ["README.md"; "pyproject.toml"; ".gitignore"; "src/core/node.py";
            "tests/test_node.py"; "docs/notes.md"; "build/script.js";
            "src/__init__.py"]%string.
Proof. vm_compute. reflexivity. Qed.

(** ** Content truncator *)

Lemma split_lines_nonempty (s : str) : split_lines s <> [].
Proof.
  destruct s as [|c s]; simpl; [discriminate |].
  destruct (char_eqb c NL); [discriminate |].
  destruct (split_lines s); discriminate.
Qed.

Lemma split_lines_app (a b : str) :
  split_lines (a ++ NL :: b) = split_lines a ++ split_lines b.
Proof.
  induction a as [|c a IH]; simpl.
  - reflexivity.
  - destruct (char_eqb c NL); rewrite IH; [reflexivity |].
    pose proof (split_lines_nonempty a) as Hne.
    destruct (split_lines a); [contradiction | reflexivity].
Qed.

Lemma split_lines_join (ps : list str) :
  ps <> [] -> split_lines (join [NL] ps) = flat_map split_lines ps.
Proof.
  induction ps as [|p ps IH]; intros Hne; [contradiction |].
  destruct ps as [|q ps].
  - simpl; rewrite app_nil_r; reflexivity.
  - change (join [NL] (p :: q :: ps)) with (p ++ NL :: join [NL] (q :: ps)).
    rewrite split_lines_app, IH by discriminate; reflexivity.
Qed.

Lemma split_lines_one (l : str) : ~ In NL l -> split_lines l = [l].
Proof.
  induction l as [|c l IH]; simpl; intros Hn; [reflexivity |].
  destruct (char_eqb c NL) eqn:E.
  - apply N.eqb_eq in E; subst; exfalso; apply Hn; left; reflexivity.
  - rewrite IH by tauto; reflexivity.
Qed.

Lemma split_lines_pieces (s : str) :
  Forall (fun l => ~ In NL l) (split_lines s).
Proof.
  induction s as [|c s IH]; simpl.
  - constructor; [intros [] | constructor].
  - destruct (char_eqb c NL) eqn:E.
    + constructor; [intros [] | exact IH].
    + destruct (split_lines s) as [|l ls]; inversion IH; subst;
        constructor; try constructor; simpl; try tauto.
      * intros [H | []]; subst; rewrite N.eqb_refl in E; discriminate.
      * intros [H | H]; [subst; rewrite N.eqb_refl in E; discriminate |].
        tauto.
Qed.

Lemma flat_map_split_lines (ls : list str) :
  Forall (fun l => ~ In NL l) ls -> flat_map split_lines ls = ls.
Proof.
  induction 1 as [| l ls Hl _ IH]; simpl; [reflexivity |].
  rewrite split_lines_one, IH by assumption; reflexivity.
Qed.

Lemma Forall_firstn (A : Type) (P : A -> Prop) (n : nat) (l : list A) :
  Forall P l -> Forall P (firstn n l).
Proof.
  intros H; rewrite <- (firstn_skipn n l) in H.
  apply Forall_app in H; tauto.
Qed.

Lemma Forall_skipn (A : Type) (P : A -> Prop) (n : nat) (l : list A) :
  Forall P l -> Forall P (skipn n l).
Proof.
  intros H; rewrite <- (firstn_skipn n l) in H.
  apply Forall_app in H; tauto.
Qed.

Lemma last_app_nonempty (A : Type) (a c : list A) (d : A) :
  c <> [] -> last (a ++ c) d = last c d.
Proof.
  intros Hc; induction a as [|x a IH]; simpl; [reflexivity |].
  rewrite IH; destruct (a ++ c) eqn:E; [| reflexivity].
  apply app_eq_nil in E; destruct E; contradiction.
Qed.

Lemma last_skipn (A : Type) (k : nat) (l : list A) (d : A) :
  (k < List.length l)%nat -> last (skipn k l) d = last l d.
Proof.
  revert l; induction k as [|k IH]; intros l Hk; [reflexivity |].
  destruct l as [|x l]; simpl in *; [lia |].
  rewrite IH by lia.
  destruct l; [simpl in Hk; lia | reflexivity].
Qed.

Lemma string_of_uint_no_NL (d : Decimal.uint) :
  ~ In NL (map N_of_ascii (list_ascii_of_string (NilEmpty.string_of_uint d))).
Proof.
  induction d; simpl; try tauto;
    intros [H | H]; try (apply IHd; exact H); discriminate H.
Qed.

Lemma str_of_Z_no_NL (z : Z) : ~ In NL (str_of_Z z).
Proof.
  unfold str_of_Z, NilZero.string_of_int, NilZero.string_of_uint.
  destruct (Z.to_int z) as [d | d]; simpl.
  - destruct d; try apply string_of_uint_no_NL.
    simpl; intros [H | []]; discriminate H.
  - intros [H | H]; [discriminate H |].
    destruct d; try (revert H; apply string_of_uint_no_NL).
    simpl in H; destruct H as [H | []]; discriminate H.
Qed.

Lemma not_has_char (c : char) (s : str) : has_char c s = false -> ~ In c s.
Proof. intros H Hin; apply has_char_In in Hin; congruence. Qed.

Lemma split_lines_framed (x : str) :
  ~ In NL x -> split_lines ([NL] ++ x ++ [NL]) = [[]; x; []].
Proof.
  intros Hx.
  change ([NL] ++ x ++ [NL]) with ([] ++ NL :: (x ++ NL :: [])).
  rewrite (split_lines_app [] _), (split_lines_app x []).
  rewrite (@split_lines_one x Hx); reflexivity.
Qed.

Lemma line_marker_text_no_NL (half total_lines : Z) :
  ~ In NL (line_marker_text half total_lines).
Proof.
  unfold line_marker_text; intros H.
  apply in_app_or in H; destruct H as [H | H];
    [revert H; apply not_has_char; vm_compute; reflexivity |].
  apply in_app_or in H; destruct H as [H | H];
    [revert H; apply str_of_Z_no_NL |].
  apply in_app_or in H; destruct H as [H | H];
    [revert H; apply not_has_char; vm_compute; reflexivity |].
  apply in_app_or in H; destruct H as [H | H];
    [revert H; apply str_of_Z_no_NL |].
  revert H; apply not_has_char; vm_compute; reflexivity.
Qed.

(** The marker of the line cut is a line of its own between two empty
    lines. *)
Lemma line_marker_lines (half total_lines : Z) :
  split_lines (line_marker half total_lines)
  = [[]; line_marker_text half total_lines; []].
Proof.
  unfold line_marker; apply split_lines_framed, line_marker_text_no_NL.
Qed.

(** The character stage works on the text the line stage produced. *)
Lemma truncate_content_stages (content : str) (max_lines max_chars : Z) :
  truncate_content content max_lines max_chars
  = if len (line_cut content max_lines) >? max_chars
    then slice_to (line_cut content max_lines) max_chars
           ++ char_marker (len content - max_chars)
    else line_cut content max_lines.
Proof.
  unfold truncate_content, line_cut.
  rewrite !Z.gtb_ltb.
  destruct (Z.leb_spec (len (split_lines content)) max_lines) as [H1 | H1];
    destruct (Z.ltb_spec max_lines (len (split_lines content))) as [H2 | H2];
    try lia; simpl; try reflexivity.
  destruct (Z.leb_spec (len content) max_chars) as [H3 | H3];
    destruct (Z.ltb_spec max_chars (len content)) as [H4 | H4];
    try lia; reflexivity.
Qed.

(** The line stage, when the line bound is exceeded and at least one line
    is kept on each side. *)
Lemma line_cut_lines (content : str) (max_lines : Z) :
  len (split_lines content) > max_lines ->
  2 <= max_lines ->
  split_lines (line_cut content max_lines)
  = firstn (Z.to_nat (max_lines / 2)) (split_lines content)
    ++ [[]; line_marker_text (max_lines / 2) (len (split_lines content)); []]
    ++ skipn (List.length (split_lines content) - Z.to_nat (max_lines / 2))
             (split_lines content).
Proof.
  intros Hlines Hmax.
  assert (Hhalf : 1 <= max_lines / 2) by (apply Z.div_le_lower_bound; lia).
  assert (Hdouble : max_lines / 2 * 2 <= max_lines).
  { rewrite Z.mul_comm; apply Z.mul_div_le; lia. }
  unfold line_cut.
  rewrite !Z.gtb_ltb.
  destruct (Z.ltb_spec max_lines (len (split_lines content))); [| lia].
  destruct (Z.ltb_spec (max_lines / 2 * 2) (len (split_lines content)));
    [| lia].
  unfold slice_to, slice_from, slice_index.
  destruct (Z.ltb_spec (max_lines / 2) 0); [lia |].
  destruct (Z.ltb_spec (- (max_lines / 2)) 0); [| lia].
  unfold len in *.
  replace (Z.to_nat (Z.min (Z.max (max_lines / 2) 0)
                           (Z.of_nat (List.length (split_lines content)))))
    with (Z.to_nat (max_lines / 2)) by lia.
  replace (Z.to_nat
             (Z.min (Z.max (- (max_lines / 2)
                            + Z.of_nat (List.length (split_lines content))) 0)
                    (Z.of_nat (List.length (split_lines content)))))
    with (List.length (split_lines content) - Z.to_nat (max_lines / 2))%nat
    by lia.
  rewrite split_lines_join by (intros E; apply app_eq_nil in E;
                               destruct E as [_ E]; discriminate E).
  rewrite !flat_map_app; cbn [flat_map]; rewrite app_nil_r.
  rewrite line_marker_lines.
  rewrite !flat_map_split_lines;
    [reflexivity | apply Forall_skipn | apply Forall_firstn];
    apply split_lines_pieces.
Qed.

(** C1, as amended: the character cut is applied only to the result of
    the line cut, never before it: the output is the line-cut text when
    that has at most [max_chars] characters, and otherwise its first
    [max_chars] characters followed by the character marker.  When the
    line bound is exceeded with [max_lines >= 2], the line-cut text is
    the first [max_lines / 2] lines, the marker and the last
    [max_lines / 2] lines, so it starts with the first line of the text
    and ends with its last line, and both are in the output whenever the
    line-cut text fits in [max_chars]. *)
Theorem truncate_content_line_then_char (content : str)
    (max_lines max_chars : Z) :
  (len (line_cut content max_lines) <= max_chars ->
   truncate_content content max_lines max_chars
   = line_cut content max_lines) /\
  (len (line_cut content max_lines) > max_chars ->
   truncate_content content max_lines max_chars
   = slice_to (line_cut content max_lines) max_chars
       ++ char_marker (len content - max_chars)) /\
  (len (split_lines content) > max_lines -> 2 <= max_lines ->
   split_lines (line_cut content max_lines)
   = firstn (Z.to_nat (max_lines / 2)) (split_lines content)
     ++ [[]; line_marker_text (max_lines / 2) (len (split_lines content));
         []]
     ++ skipn (List.length (split_lines content) - Z.to_nat (max_lines / 2))
              (split_lines content) /\
   hd [] (split_lines (line_cut content max_lines))
   = hd [] (split_lines content) /\
   last (split_lines (line_cut content max_lines)) []
   = last (split_lines content) []).
Proof.
  rewrite truncate_content_stages, Z.gtb_ltb.
  split; [| split].
  - intros H; destruct (Z.ltb_spec max_chars (len (line_cut content max_lines)));
      [lia | reflexivity].
  - intros H; destruct (Z.ltb_spec max_chars (len (line_cut content max_lines)));
      [reflexivity | lia].
  - intros Hlines Hmax.
    assert (Hhalf : 1 <= max_lines / 2) by (apply Z.div_le_lower_bound; lia).
    assert (Hdouble : max_lines / 2 * 2 <= max_lines).
    { rewrite Z.mul_comm; apply Z.mul_div_le; lia. }
    rewrite line_cut_lines by assumption.
    split; [reflexivity | split].
    + destruct (Z.to_nat (max_lines / 2)) as [|k] eqn:Ek; [lia |].
      pose proof (split_lines_nonempty content) as Hne.
      destruct (split_lines content); [contradiction | reflexivity].
    + unfold len in Hlines.
      rewrite app_assoc, last_app_nonempty.
      * apply last_skipn; lia.
      * intros E; apply (f_equal (@List.length str)) in E.
        rewrite length_skipn in E; simpl in E; lia.
Qed.

(** C1 as stated fails: with three lines and the bounds 2 and 3, both
    bounds are exceeded, the lines retained by the line cut are the first
    and the last one, and neither is in the output, which is the first
    three characters of the line-cut text and the character marker. *)
Lemma truncate_content_both_bounds_exceeded :
  len (split_lines three_lines) > 2 /\
  len three_lines > 3 /\
  hd [] (split_lines (line_cut three_lines 2)) = py "aaaa" /\
  last (split_lines (line_cut three_lines 2)) [] = py "cccc" /\
  truncate_content three_lines 2 3 = py "aaa" ++ [NL] ++ py "[... файл обрезан, 11 символов скрыто ...]" /\
  contains (py "aaaa") (truncate_content three_lines 2 3) = false /\
  contains (py "cccc") (truncate_content three_lines 2 3) = false.
Proof. vm_compute. repeat split; congruence. Qed.

(** Five lines with the bounds 2 and 1000: the line cut alone applies and
    the ends are kept. *)
Lemma truncate_content_line_then_char_witness :
  truncate_content five_lines 2 1000 = line_cut five_lines 2 /\
  hd [] (split_lines (line_cut five_lines 2)) = py "l1" /\
  last (split_lines (line_cut five_lines 2)) [] = py "l5".
Proof.
  pose proof (truncate_content_line_then_char five_lines 2 1000)
    as [Hfit [_ Hends]].
  split.
  - apply Hfit; vm_compute; discriminate.
  - destruct Hends as [_ [Hhd Hlast]];
      [vm_compute; reflexivity | lia |].
    split; [rewrite Hhd | rewrite Hlast]; vm_compute; reflexivity.
Defined.

(** ** Source summarizer *)

Lemma node_count_children (n : node) :
  node_count n
  = S (fold_right (fun m k => (node_count m + k)%nat) O (iter_child_nodes n)).
Proof.
  destruct n as [names | module names | name bases body | name fargs body
                 | name fargs body | children]; simpl; try reflexivity;
    f_equal;
    match goal with
    | |- _ = fold_right _ _ ?l => induction l as [|m l IH]; simpl; congruence
    end.
Qed.

(** [ast.walk] visits every node: the queue is emptied before the fuel
    is. *)
Lemma walk_queue_length (fuel : nat) (todo : list node) :
  (fold_right (fun m k => (node_count m + k)%nat) O todo <= fuel)%nat ->
  List.length (walk_queue fuel todo)
  = fold_right (fun m k => (node_count m + k)%nat) O todo.
Proof.
  revert todo; induction fuel as [|fuel IH]; intros todo Hfuel.
  - destruct todo as [|n rest]; [reflexivity |].
    simpl in Hfuel; rewrite node_count_children in Hfuel; lia.
  - destruct todo as [|n rest]; [reflexivity |].
    simpl in *; rewrite node_count_children in *.
    assert (Hsum : forall a c : list node,
               fold_right (fun m k => (node_count m + k)%nat) O (a ++ c)
               = (fold_right (fun m k => (node_count m + k)%nat) O a
                  + fold_right (fun m k => (node_count m + k)%nat) O c)%nat).
    { intros a c; induction a as [|x a IHa]; simpl; [reflexivity | lia]. }
    rewrite IH; rewrite Hsum; lia.
Qed.

Lemma walk_length (tree : node) :
  List.length (walk tree) = node_count tree.
Proof.
  unfold walk; rewrite walk_queue_length; simpl; lia.
Qed.

(** When the parse fails with an exception the handler names, the
    summary is empty and keeps the raw line count. *)
Lemma analyze_parse_failure (grammar : str -> result node)
    (ast_unparse : expr -> result str) (content : str) (e : exn) :
  ast_parse grammar content = Raise e ->
  caught e = true ->
  analyze grammar ast_unparse content
  = Return {| imports := []; classes := []; functions := [];
              line_count := len (split_lines content);
              code_line_count := 0 |}.
Proof.
  intros Hparse Hcaught; unfold analyze; rewrite Hparse, Hcaught.
  reflexivity.
Qed.

Lemma analyze_parse_failure_witness :
  analyze reject_all unparse_fails (py "def f(:")
  = Return {| imports := []; classes := []; functions := [];
              line_count := 1; code_line_count := 0 |}.
Proof.
  apply (@analyze_parse_failure reject_all unparse_fails (py "def f(:")
                                SyntaxError); reflexivity.
Defined.

(** [analyze] returns a summary with the raw line count whenever the
    parser and [ast.unparse] raise nothing but the exceptions the handler
    names. *)
Lemma analyze_returns (grammar : str -> result node)
    (ast_unparse : expr -> result str) (content : str) :
  (forall e, ast_parse grammar content = Raise e -> caught e = true) ->
  (forall base e, ast_unparse base = Raise e -> caught e = true) ->
  exists a, analyze grammar ast_unparse content = Return a /\
            line_count a = len (split_lines content).
Proof.
  intros Hparse Hunparse; unfold analyze.
  destruct (ast_parse grammar content) as [tree | e].
  - assert (Hloop : forall nodes a,
               line_count (fst (visit_all ast_unparse a nodes)) = line_count a
               /\ forall e, snd (visit_all ast_unparse a nodes) = Some e ->
                            caught e = true).
    { induction nodes as [|n nodes IH]; intros a; simpl.
      - split; [reflexivity | discriminate].
      - destruct (visit ast_unparse a n) as [a' | e] eqn:Ev; simpl.
        + destruct (IH a') as [Hl He]; split; [| exact He].
          rewrite Hl; clear - Ev.
          destruct n; simpl in Ev;
            try (inversion Ev; subst; reflexivity).
          destruct (class_bases ast_unparse bases);
            simpl in Ev; inversion Ev; subst; reflexivity.
        + split; [reflexivity |].
          intros e' He'; inversion He'; subst e'; clear He'.
          destruct n; simpl in Ev; try discriminate.
          assert (Hb : forall bs e0,
                     class_bases ast_unparse bs = Raise e0 ->
                     caught e0 = true).
          { induction bs as [|base bs IHb]; intros e0; simpl;
              [discriminate |].
            destruct base as [id | value attr |].
            - destruct (class_bases ast_unparse bs); simpl;
                [discriminate |].
              intros H; inversion H; subst; apply IHb; reflexivity.
            - destruct (ast_unparse (Attribute value attr)) eqn:Eu; simpl.
              + destruct (class_bases ast_unparse bs); simpl;
                  [discriminate |].
                intros H; inversion H; subst; apply IHb; reflexivity.
              + intros H; inversion H; subst; eapply Hunparse; eassumption.
            - apply IHb. }
          destruct (class_bases ast_unparse bases) eqn:Eb; simpl in Ev;
            [discriminate |].
          inversion Ev; subst; eapply Hb; eassumption. }
    destruct (Hloop (walk tree)
                {| imports := []; classes := []; functions := [];
                   line_count := len (split_lines content);
                   code_line_count := 0 |}) as [Hl He].
    destruct (visit_all ast_unparse _ (walk tree)) as [a [e |]]; simpl in *.
    + rewrite (He e eq_refl); eexists; split; [reflexivity | exact Hl].
    + eexists; split; [reflexivity | exact Hl].
  - rewrite (Hparse e eq_refl); eexists; split; reflexivity.
Qed.

Lemma analyze_returns_witness :
  exists a, analyze reject_all unparse_fails (py "def f(:") = Return a /\
            line_count a = len (split_lines (py "def f(:")).
Proof.
  apply analyze_returns.
  - intros e H; vm_compute in H; inversion H; reflexivity.
  - intros base e H; vm_compute in H; inversion H; reflexivity.
Defined.

(** C8 fails on the code: a source with a lone surrogate cannot be
    encoded for the parser, [ast.parse] raises [UnicodeEncodeError], the
    handler names only [SyntaxError] and [RecursionError], and [analyze]
    raises, whatever the grammar. *)
Theorem analyze_lone_surrogate_raises (grammar : str -> result node)
    (ast_unparse : expr -> result str) :
  analyze grammar ast_unparse [56448%N] = Raise UnicodeEncodeError.
Proof. reflexivity. Qed.

(** ** Directory tree renderer *)

(** More depth does not change what [build_tree] returns. *)
Lemma tree_lines_more_depth
    (r1 r2 : str -> str -> bool -> option (list str))
    (structure : structure_t) (node prefix : str) (is_last : bool)
    (count : Z) :
  (forall n p l lines, r1 n p l = Some lines -> r2 n p l = Some lines) ->
  forall cs i lines,
    tree_lines r1 structure node prefix is_last count i cs = Some lines ->
    tree_lines r2 structure node prefix is_last count i cs = Some lines.
Proof.
  intros Hr; induction cs as [|child cs IH]; intros i lines;
    [auto |].
  cbn [tree_lines].
  destruct (structure_has structure _ || has_char SLASH child).
  - destruct (r1 _ _ _) as [below |] eqn:E1; [| intros H; discriminate H].
    rewrite (Hr _ _ _ _ E1).
    destruct (tree_lines r1 _ _ _ _ _ _ cs) as [after |] eqn:E2;
      [| intros H; discriminate H].
    rewrite (IH _ _ E2); auto.
  - destruct (tree_lines r1 _ _ _ _ _ _ cs) as [after |] eqn:E2;
      [| intros H; discriminate H].
    rewrite (IH _ _ E2); auto.
Qed.

Lemma build_tree_more_depth (structure : structure_t) (depth : nat) :
  forall node prefix is_last lines,
    build_tree depth structure node prefix is_last = Some lines ->
    build_tree (S depth) structure node prefix is_last = Some lines.
Proof.
  induction depth as [|depth IH]; intros node prefix is_last lines;
    [discriminate |].
  intros H.
  change (tree_lines (build_tree (S depth) structure) structure node prefix
                     is_last (len (sorted (children_of structure node))) O
                     (sorted (children_of structure node)) = Some lines).
  apply tree_lines_more_depth with (r1 := build_tree depth structure);
    [exact IH | exact H].
Qed.

Lemma build_tree_more_depth_witness :
  build_tree 3 [(py "src", map py ["b.py"; "a.py"]%string)] (py "src") []
             false
  = Some [py "├── 📄 a.py"; py "├── 📄 b.py"].
Proof. apply build_tree_more_depth; vm_compute; reflexivity. Defined.

(** Registering a file that is not directly under the root leaves the
    root key of [structure] as it was: a first-level directory is never
    made a child of the root. *)
Lemma structure_has_append (s : structure_t) (k v k' : str) :
  k <> k' ->
  structure_has (structure_append s k v) k' = structure_has s k'.
Proof.
  intros Hk; unfold structure_has.
  induction s as [|[k0 vs] s IH]; simpl.
  - destruct (str_eqb k k') eqn:E; [apply str_eqb_eq in E; contradiction |].
    reflexivity.
  - destruct (str_eqb k0 k) eqn:E0; simpl;
      destruct (str_eqb k0 k'); try reflexivity; exact IH.
Qed.

Lemma join_slash_not_dot (ps : list str) :
  ps <> [] -> hd [] ps <> [DOT] -> join [SLASH] ps <> [DOT].
Proof.
  destruct ps as [|p ps]; [contradiction |]; simpl; intros _ Hp.
  destruct ps as [|q ps]; [exact Hp |].
  intros H.
  destruct p as [|c p]; [discriminate H |].
  destruct p as [|d p]; [| discriminate H].
  simpl in H; inversion H.
Qed.

Lemma register_file_keeps_root (s : structure_t) (file : list str) :
  List.length file <> 1%nat -> hd [] file <> [DOT] ->
  structure_has (register_file s file) [DOT] = structure_has s [DOT].
Proof.
  intros Hlen Hhd; unfold register_file, len.
  destruct (Z.eqb_spec (Z.of_nat (List.length file)) 1); [lia |].
  assert (Hseq : forall i, In i (seq 1 (List.length file - 1)) ->
                           join [SLASH] (firstn i file) <> [DOT]).
  { intros i Hi; apply in_seq in Hi.
    destruct file as [|p file]; [simpl in Hi; lia |].
    destruct i as [|i]; [lia |].
    apply join_slash_not_dot; [discriminate | exact Hhd]. }
  revert s Hseq; induction (seq 1 (List.length file - 1)) as [|i l IH];
    intros s Hseq; simpl; [reflexivity |].
  rewrite IH by (intros j Hj; apply Hseq; right; exact Hj).
  destruct (Z.of_nat i =? Z.of_nat (List.length file) - 1).
  - apply structure_has_append, Hseq; left; reflexivity.
  - destruct (mem _ _); [reflexivity |].
    apply structure_has_append, Hseq; left; reflexivity.
Qed.

(** The rendered tree of a project without a file directly under its
    root is empty, whatever lies in its directories. *)
Lemma render_tree_without_root_files (files : list (list str)) :
  Forall (fun file => List.length file <> 1%nat /\ hd [] file <> [DOT])
         files ->
  render_tree files = Return [].
Proof.
  intros Hfiles; unfold render_tree.
  assert (H : forall s, structure_has s [DOT] = false ->
                        structure_has (fold_left register_file files s) [DOT]
                        = false).
  { induction Hfiles as [|file files [Hlen Hhd] _ IH]; intros s Hs; simpl;
      [exact Hs |].
    apply IH; rewrite register_file_keeps_root; assumption. }
  rewrite (H [] eq_refl); reflexivity.
Qed.

Lemma render_tree_without_root_files_witness :
  render_tree [map py ["src"; "core"; "node.py"]%string;
               map py ["tests"; "test_node.py"]%string] = Return [].
Proof.
  apply render_tree_without_root_files.
  repeat constructor; vm_compute; discriminate.
Defined.

(** C9 fails on the code: for a project with two files in [src], the
    directory [src] has the children [a.py] and [b.py], and the rendered
    tree is empty.  The loop that builds [structure] registers the children
    of every directory but never registers a first-level directory as a
    child of the root, and the rendering starts from the root's children,
    so only the files directly under the root are ever emitted. *)
Theorem build_directory_tree_drops_nested_files :
  map (relative_parts sample_builder)
      (_collect_all_files sample_builder nested_fs)
  = [map py ["src"; "b.py"]%string; map py ["src"; "a.py"]%string] /\
  fold_left register_file
            (map (relative_parts sample_builder)
                 (_collect_all_files sample_builder nested_fs)) []
  = [(py "src", map py ["b.py"; "a.py"]%string)] /\
  build_directory_tree sample_builder nested_fs = Return [].
Proof. vm_compute. repeat split; reflexivity. Qed.

(** On the sample project the tree is the one file under the root. *)
Lemma build_directory_tree_sample :
  build_directory_tree sample_builder sample_fs
  = Return (py "📄 README.md").
Proof. vm_compute. reflexivity. Qed.

(** The nested renderer itself, started on the directory [src] of that
    structure: both children get the connector of a non-last child,
    because the connector is chosen from the flag of the directory and
    not from the position of the child. *)
Lemma build_tree_same_connector :
  build_tree 2 [(py "src", map py ["b.py"; "a.py"]%string)] (py "src") []
             false
  = Some [py "├── 📄 a.py"; py "├── 📄 b.py"].
Proof. vm_compute. reflexivity. Qed.

(** ** Document assembly *)

Section BuildFacts.

Variable grammar : str -> result node.
Variable ast_unparse : expr -> result str.
Variable b : ContextBuilder.
Variable fs : FileSystem.

(** A file read as the empty string appends nothing, not even its
    header. *)
Lemma file_parts_empty (total i : Z) (file_str : str) :
  _read_file fs (path_join (root b) file_str) = Some [] ->
  file_parts grammar ast_unparse b fs total i file_str = Return [].
Proof. intros H; unfold file_parts; rewrite H; reflexivity. Qed.

(** Neither does a file that cannot be read. *)
Lemma file_parts_unreadable (total i : Z) (file_str : str) :
  _read_file fs (path_join (root b) file_str) = None ->
  file_parts grammar ast_unparse b fs total i file_str = Return [].
Proof. intros H; unfold file_parts; rewrite H; reflexivity. Qed.

Lemma file_parts_hide_empty (total i : Z) (file_str : str) :
  file_parts grammar ast_unparse b (hide_empty fs) total i file_str
  = file_parts grammar ast_unparse b fs total i file_str.
Proof.
  unfold file_parts, _read_file, hide_empty; simpl.
  destruct (read_text fs (path_join (root b) file_str)) as [[|c cs] |];
    reflexivity.
Qed.

Lemma files_loop_hide_empty (total i : Z) (prioritized : list str) :
  files_loop grammar ast_unparse b (hide_empty fs) total i prioritized
  = files_loop grammar ast_unparse b fs total i prioritized.
Proof.
  revert i; induction prioritized as [|file_str rest IH]; intros i; simpl;
    [reflexivity |].
  rewrite file_parts_hide_empty, IH; reflexivity.
Qed.

(** The whole document is the same when the empty files are unreadable
    instead: empty files are left out of the content section exactly like
    unreadable ones. *)
Lemma build_hide_empty :
  build grammar ast_unparse b (hide_empty fs)
  = build grammar ast_unparse b fs.
Proof.
  assert (Hfiles : _collect_all_files b (hide_empty fs)
                   = _collect_all_files b fs) by reflexivity.
  assert (Htree : build_directory_tree b (hide_empty fs)
                  = build_directory_tree b fs) by reflexivity.
  unfold build, content_parts.
  rewrite Hfiles, Htree.
  destruct (_collect_all_files b fs); [reflexivity |].
  rewrite files_loop_hide_empty; reflexivity.
Qed.

End BuildFacts.

Lemma file_parts_empty_witness :
  file_parts reject_all unparse_fails sample_builder empty_files_fs 2 1
             (py "notes.txt") = Return [].
Proof. apply file_parts_empty; reflexivity. Defined.

(** C10 fails on the code for a file below the root: [src/empty.py] is
    included and read as the empty string, the content section has no
    entry for it, as the claim says, but it is not in the directory tree
    either, which shows only the files directly under the root (the
    defect of the tree renderer). *)
Theorem build_nested_empty_file_not_in_tree :
  map path_str (_collect_all_files sample_builder empty_files_fs)
  = map py ["/home/user/project/notes.txt";
            "/home/user/project/src/empty.py"]%string /\
  _read_file empty_files_fs
             (path_join (root sample_builder) (py "src/empty.py")) = Some [] /\
  content_parts reject_all unparse_fails sample_builder empty_files_fs
  = Return [] /\
  build_directory_tree sample_builder empty_files_fs
  = Return (py "📄 notes.txt") /\
  (forall tree, build_directory_tree sample_builder empty_files_fs
                = Return tree -> contains (py "empty.py") tree = false).
Proof.
  vm_compute; repeat split; try reflexivity.
  intros tree H; inversion H; subst; reflexivity.
Qed.

(** * Further properties of the code *)

(** ** [truncate_content] *)

Lemma len_app (A : Type) (a c : list A) : len (a ++ c) = len a + len c.
Proof. unfold len; rewrite length_app; lia. Qed.

Lemma join_split_lines (s : str) : join [NL] (split_lines s) = s.
Proof.
  induction s as [|c s IH]; simpl; [reflexivity |].
  pose proof (split_lines_nonempty s) as Hne.
  destruct (char_eqb c NL) eqn:E.
  - apply N.eqb_eq in E; subst c.
    destruct (split_lines s) as [|l ls]; [contradiction |].
    change (join [NL] ([] :: l :: ls)) with (NL :: join [NL] (l :: ls)).
    rewrite IH; reflexivity.
  - destruct (split_lines s) as [|l ls]; [contradiction |].
    rewrite <- IH; destruct ls; reflexivity.
Qed.

(** With a non-negative character bound the output is never longer than
    the bound plus the character marker. *)
Theorem truncate_content_length_bound (content : str)
    (max_lines max_chars : Z) :
  0 <= max_chars ->
  len (truncate_content content max_lines max_chars)
  <= max_chars + len (char_marker (len content - max_chars)).
Proof.
  intros Hmc.
  assert (Hm : 0 <= len (char_marker (len content - max_chars)))
    by (unfold len; lia).
  rewrite truncate_content_stages, Z.gtb_ltb.
  destruct (Z.ltb_spec max_chars (len (line_cut content max_lines)))
    as [Hlong | Hshort]; [| lia].
  rewrite len_app.
  unfold slice_to, slice_index.
  destruct (Z.ltb_spec max_chars 0); [lia |].
  unfold len in *; rewrite length_firstn; lia.
Qed.

Lemma truncate_content_length_bound_witness :
  len (truncate_content three_lines 2 3)
  <= 3 + len (char_marker (len three_lines - 3)).
Proof. apply truncate_content_length_bound; lia. Defined.

(** With [max_lines] 0 or 1 the half is 0 and [lines[-0:]] is the whole
    list: the line cut removes nothing and puts the marker in front of the
    unchanged content. *)
Theorem line_cut_half_zero (content : str) (max_lines : Z) :
  0 <= max_lines <= 1 ->
  len (split_lines content) > max_lines ->
  line_cut content max_lines
  = line_marker 0 (len (split_lines content)) ++ [NL] ++ content.
Proof.
  intros Hml Hlines.
  assert (Hhalf : max_lines / 2 = 0) by (apply Z.div_small; lia).
  unfold line_cut; rewrite Hhalf, !Z.gtb_ltb.
  destruct (Z.ltb_spec max_lines (len (split_lines content))); [| lia].
  destruct (Z.ltb_spec (0 * 2) (len (split_lines content))); [| lia].
  unfold slice_to, slice_from, slice_index; simpl (- 0).
  destruct (Z.ltb_spec 0 0); [lia |].
  replace (Z.to_nat (Z.min (Z.max 0 0) (len (split_lines content))))
    with O by lia.
  cbn [firstn skipn app].
  pose proof (split_lines_nonempty content) as Hne.
  pose proof (join_split_lines content) as Hjoin.
  destruct (split_lines content) as [|l ls]; [contradiction |].
  change (join [NL] (line_marker 0 (len (l :: ls)) :: l :: ls))
    with (line_marker 0 (len (l :: ls)) ++ [NL] ++ join [NL] (l :: ls)).
  rewrite Hjoin; reflexivity.
Qed.

Lemma line_cut_half_zero_witness :
  line_cut three_lines 1 = line_marker 0 3 ++ [NL] ++ three_lines.
Proof.
  apply (@line_cut_half_zero three_lines 1); [lia | vm_compute; reflexivity].
Defined.

(** When the line bound is exceeded with [max_lines >= 2], the line-cut
    text has twice the half plus three lines (the marker between two empty
    lines), hence at most [max_lines + 3]. *)
Theorem line_cut_line_count (content : str) (max_lines : Z) :
  len (split_lines content) > max_lines ->
  2 <= max_lines ->
  len (split_lines (line_cut content max_lines)) = 2 * (max_lines / 2) + 3 /\
  len (split_lines (line_cut content max_lines)) <= max_lines + 3.
Proof.
  intros Hlines Hmax.
  assert (Hhalf : 1 <= max_lines / 2) by (apply Z.div_le_lower_bound; lia).
  assert (Hdouble : 2 * (max_lines / 2) <= max_lines)
    by (apply Z.mul_div_le; lia).
  rewrite line_cut_lines by assumption.
  unfold len in *.
  rewrite !length_app, length_firstn, length_skipn; simpl List.length.
  lia.
Qed.

Lemma line_cut_line_count_witness :
  len (split_lines (line_cut five_lines 2)) = 2 * (2 / 2) + 3 /\
  len (split_lines (line_cut five_lines 2)) <= 2 + 3.
Proof.
  apply line_cut_line_count; [vm_compute; reflexivity | lia].
Defined.

(** ** [detect_file_priority] *)

(** LOW is the answer exactly for a documentation suffix directly in a
    directory [docs] or [documentation], when the base name is none of the
    critical or configuration names. *)
Theorem detect_file_priority_LOW_iff (p : Path) :
  detect_file_priority p = LOW <->
  mem (path_name p) critical_names = false /\
  mem (path_name p) config_names = false /\
  mem (path_suffix p) doc_suffixes = true /\
  mem (path_name (path_parent p)) doc_dirs = true.
Proof.
  unfold detect_file_priority.
  fold critical_names config_names doc_suffixes doc_dirs.
  destruct (mem (path_name p) critical_names);
    [split; [discriminate | intros [H _]; discriminate H] |].
  destruct (mem (path_name p) config_names);
    [split; [discriminate | intros [_ [H _]]; discriminate H] |].
  destruct (str_eqb (path_suffix p) (py ".py")) eqn:Epy.
  - apply str_eqb_eq in Epy; rewrite Epy.
    assert (Hdoc : mem (py ".py") doc_suffixes = false)
      by (vm_compute; reflexivity).
    rewrite Hdoc.
    destruct (_ && _);
      [split; [discriminate | intros [_ [_ [H _]]]; discriminate H] |].
    destruct (_ || _);
      [split; [discriminate | intros [_ [_ [H _]]]; discriminate H] |].
    destruct (existsb _ _);
      [split; [discriminate | intros [_ [_ [H _]]]; discriminate H] |].
    destruct (mem (py ".py") _);
      split; try discriminate; intros [_ [_ [H _]]]; discriminate H.
  - destruct (mem (path_suffix p) doc_suffixes).
    + destruct (mem (path_name (path_parent p)) doc_dirs).
      * split; [intros _; repeat split | reflexivity].
      * split; [discriminate | intros [_ [_ [_ H]]]; discriminate H].
    + destruct (mem (path_suffix p) _);
        split; try discriminate; intros [_ [_ [H _]]]; discriminate H.
Qed.

(** A path with the substring ["test"] is HIGH only through a
    configuration name: the source rule never ranks it HIGH. *)
Theorem detect_file_priority_test_not_HIGH (p : Path) :
  contains (py "test") (path_str p) = true ->
  detect_file_priority p = HIGH ->
  mem (path_name p) config_names = true.
Proof.
  intros Htest; unfold detect_file_priority.
  fold critical_names config_names doc_suffixes doc_dirs.
  rewrite Htest.
  destruct (mem (path_name p) critical_names); [discriminate |].
  destruct (mem (path_name p) config_names); [reflexivity |].
  rewrite !andb_false_r.
  destruct (str_eqb (path_suffix p) (py ".py"));
    repeat match goal with
           | |- (if ?c then _ else _) = HIGH -> _ => destruct c
           end; discriminate.
Qed.

Lemma detect_file_priority_test_not_HIGH_witness :
  detect_file_priority (path_of_str (py "tests/setup.py")) = HIGH /\
  mem (path_name (path_of_str (py "tests/setup.py"))) config_names = true.
Proof.
  split; [vm_compute; reflexivity |].
  apply detect_file_priority_test_not_HIGH; vm_compute; reflexivity.
Defined.

(** ** [match_pattern] and the glob matcher *)

Lemma glob_parse_plain (s : str) (fuel : nat) :
  plain s = true -> (List.length s <= fuel)%nat ->
  glob_parse fuel s = map Lit s.
Proof.
  revert fuel; induction s as [|c s IH]; intros fuel Hp Hf.
  - destruct fuel; reflexivity.
  - destruct fuel as [|fuel]; [simpl in Hf; lia |].
    simpl in Hp; apply andb_true_iff in Hp; destruct Hp as [Hc Hp].
    apply negb_true_iff in Hc.
    apply orb_false_iff in Hc; destruct Hc as [Hc Hb].
    apply orb_false_iff in Hc; destruct Hc as [Hs Hq].
    simpl; rewrite Hs, Hq, Hb, IH by (simpl in Hf; auto; lia).
    reflexivity.
Qed.

Lemma glob_match_literal (s name : str) :
  glob_match (map Lit s) name = str_eqb name s.
Proof.
  revert name; induction s as [|d s IH]; intros [|c name]; simpl;
    try reflexivity.
  rewrite IH; reflexivity.
Qed.

Lemma glob_match_star (gs : list glob) (name : str) :
  glob_match (Star :: gs) name = true <->
  exists front back, name = front ++ back /\ glob_match gs back = true.
Proof.
  induction name as [|c name IH].
  - change (glob_match (Star :: gs) []) with (glob_match gs [] || false).
    rewrite orb_false_r; split.
    + intros H; exists [], []; split; [reflexivity | exact H].
    + intros [front [back [H Hm]]].
      symmetry in H; apply app_eq_nil in H; destruct H; subst; exact Hm.
  - change (glob_match (Star :: gs) (c :: name))
      with (glob_match gs (c :: name) || glob_match (Star :: gs) name).
    rewrite orb_true_iff, IH; split.
    + intros [H | [front [back [H Hm]]]].
      * exists [], (c :: name); split; [reflexivity | exact H].
      * exists (c :: front), back; split; [subst; reflexivity | exact Hm].
    + intros [front [back [H Hm]]].
      destruct front as [|d front]; simpl in H.
      * left; subst back; exact Hm.
      * right; inversion H; subst; exists front, back; auto.
Qed.

Lemma fnmatch_star_suffix (filename ext : str) :
  plain ext = true ->
  fnmatch filename (STAR :: ext) = endswith filename ext.
Proof.
  intros Hplain; unfold fnmatch; simpl glob_parse.
  rewrite glob_parse_plain by auto.
  apply eq_true_iff_eq.
  rewrite glob_match_star, endswith_suffix; split.
  - intros [front [back [H Hm]]].
    rewrite glob_match_literal in Hm; apply str_eqb_eq in Hm; subst.
    exists front; reflexivity.
  - intros [front H]; exists front, ext; split; [exact H |].
    rewrite glob_match_literal; apply str_eqb_refl.
Qed.

Lemma match_pattern_star (filename ext : str) :
  plain ext = true ->
  match_pattern filename (STAR :: ext) = endswith filename ext.
Proof.
  intros Hplain; unfold match_pattern.
  destruct (str_eqb (STAR :: ext) filename) eqn:E.
  - apply str_eqb_eq in E; subst filename.
    symmetry; apply endswith_suffix; exists [STAR]; reflexivity.
  - assert (Hs : has_char STAR (STAR :: ext) = true)
      by (apply has_char_In; left; reflexivity).
    rewrite Hs; apply fnmatch_star_suffix; exact Hplain.
Qed.

(** A pattern [*ext] whose [ext] has no wildcard is a suffix test, for the
    glob matcher and for [match_pattern] alike: this is how the default
    patterns such as [*.pyc] work. *)
Theorem match_pattern_star_suffix (filename ext : str) :
  plain ext = true ->
  match_pattern filename (STAR :: ext) = endswith filename ext /\
  fnmatch filename (STAR :: ext) = endswith filename ext.
Proof.
  intros Hplain; split;
    [apply match_pattern_star | apply fnmatch_star_suffix]; exact Hplain.
Qed.

Lemma match_pattern_star_suffix_witness :
  match_pattern (py "module.cpython-311.pyc") (STAR :: py ".pyc")
  = endswith (py "module.cpython-311.pyc") (py ".pyc") /\
  fnmatch (py "module.cpython-311.pyc") (STAR :: py ".pyc")
  = endswith (py "module.cpython-311.pyc") (py ".pyc").
Proof.
  apply match_pattern_star_suffix; vm_compute; reflexivity.
Defined.

(** ** [_should_exclude] and [add_filter] *)

(** A file whose name ends with [ext] is excluded as soon as the file
    names of the policy hold the pattern [*ext]. *)
Theorem should_exclude_file_by_suffix (b : ContextBuilder) (p : Path)
    (ext : str) :
  In (STAR :: ext) (files (exclusions b)) ->
  plain ext = true ->
  endswith (path_name p) ext = true ->
  _should_exclude b false p = true.
Proof.
  intros Hin Hplain Hend; unfold _should_exclude.
  assert (H : existsb (fun pattern => match_pattern (path_name p) pattern)
                      (files (exclusions b)) = true).
  { apply existsb_exists; exists (STAR :: ext); split; [exact Hin |].
    rewrite match_pattern_star; assumption. }
  rewrite H; reflexivity.
Qed.

Lemma should_exclude_file_by_suffix_witness :
  _should_exclude sample_builder false
    (path_of_str (py "/home/user/project/pkg/cache.sqlite3")) = true.
Proof.
  apply (@should_exclude_file_by_suffix sample_builder _ (py ".sqlite3"));
    vm_compute; auto 20.
Defined.

Lemma should_exclude_one_more_filter (b : ContextBuilder) (name : str)
    (condition : Path -> bool) (is_dir : bool) (p : Path) :
  _should_exclude (add_filter b name condition) is_dir p
  = _should_exclude b is_dir p || condition p.
Proof.
  unfold _should_exclude, add_filter; simpl.
  rewrite existsb_app; simpl; rewrite orb_false_r.
  destruct is_dir.
  - destruct (existsb _ (dirs (exclusions b))); reflexivity.
  - destruct (existsb _ (files (exclusions b))); [reflexivity |].
    destruct (existsb _ (file_patterns (exclusions b))); [reflexivity |].
    destruct (existsb _ (extensions (exclusions b))); reflexivity.
Qed.

(** A filter added with [add_filter] is one more reason to exclude and
    takes none away, for files and directories alike. *)
Theorem should_exclude_add_filter (b : ContextBuilder) (name : str)
    (condition : Path -> bool) (is_dir : bool) (p : Path) :
  _should_exclude (add_filter b name condition) is_dir p
  = _should_exclude b is_dir p || condition p /\
  (_should_exclude b is_dir p = true ->
   _should_exclude (add_filter b name condition) is_dir p = true).
Proof.
  rewrite should_exclude_one_more_filter; split; [reflexivity |].
  intros ->; reflexivity.
Qed.

(** With one more filter the walk collects a part of what it collected
    before, and nothing the filter rejects. *)
Lemma walk_collect_add_filter (b : ContextBuilder) (name : str)
    (condition : Path -> bool) (e : entry) :
  forall root_path p,
    In p (walk_collect (add_filter b name condition) root_path e) ->
    In p (walk_collect b root_path e) /\ condition p = false.
Proof.
  induction e as [file | dn entries IH] using entry_induction;
    intros root_path p Hin; [destruct Hin |].
  rewrite walk_collect_Dir in *.
  apply in_app_or in Hin; destruct Hin as [Hin | Hin];
    apply in_flat_map in Hin; destruct Hin as [x [Hx Hin]].
  - destruct x as [file | sub subs]; [| destruct Hin].
    rewrite should_exclude_one_more_filter in Hin.
    destruct (_should_exclude b false (path_child root_path file)) eqn:Eb;
      [destruct Hin |].
    destruct (condition (path_child root_path file)) eqn:Ec;
      [destruct Hin |].
    destruct Hin as [<- | []]; split; [| exact Ec].
    apply in_or_app; left; apply in_flat_map.
    exists (File file); split; [exact Hx |].
    rewrite Eb; left; reflexivity.
  - destruct x as [file | sub subs]; [destruct Hin |].
    rewrite should_exclude_one_more_filter in Hin.
    destruct (_should_exclude b true (path_child root_path sub)) eqn:Eb;
      [destruct Hin |].
    destruct (condition (path_child root_path sub)) eqn:Ec;
      [destruct Hin |].
    rewrite Forall_forall in IH.
    destruct (IH _ Hx _ _ Hin) as [Hp Hc]; split; [| exact Hc].
    apply in_or_app; right; apply in_flat_map.
    exists (Dir sub subs); split; [exact Hx |].
    rewrite Eb; exact Hp.
Qed.

(** Adding a filter can only take files out of the result of
    [_collect_all_files]: what is collected with the filter was collected
    without it, and the filter does not reject it. *)
Theorem collect_all_files_add_filter (b : ContextBuilder) (fs : FileSystem)
    (name : str) (condition : Path -> bool) (p : Path) :
  In p (_collect_all_files (add_filter b name condition) fs) ->
  In p (_collect_all_files b fs) /\ condition p = false.
Proof. apply walk_collect_add_filter. Qed.

Lemma collect_all_files_add_filter_witness :
  In (path_of_str (py "/home/user/project/README.md"))
     (_collect_all_files sample_builder sample_fs) /\
  str_eqb (path_suffix (path_of_str (py "/home/user/project/README.md")))
          (py ".py") = false.
Proof.
  apply (@collect_all_files_add_filter sample_builder sample_fs (py "no-py")
           (fun q => str_eqb (path_suffix q) (py ".py"))).
  vm_compute; auto.
Defined.

(** ** [_collect_all_files] and [apply_filters] *)

Lemma walk_collect_complete (b : ContextBuilder) (entries : list entry)
    (rel : list str) :
  file_at entries rel ->
  forall root_path name,
    (forall k, (0 < k < List.length rel)%nat ->
       _should_exclude b true
         {| anchor := anchor root_path;
            parts := parts root_path ++ firstn k rel |} = false) ->
    _should_exclude b false
      {| anchor := anchor root_path; parts := parts root_path ++ rel |}
    = false ->
    In {| anchor := anchor root_path; parts := parts root_path ++ rel |}
       (walk_collect b root_path (Dir name entries)).
Proof.
  induction 1 as [entries file Hin | entries dn sub rel Hin Hat IH];
    intros root_path name Hdirs Hfile; rewrite walk_collect_Dir;
    apply in_or_app.
  - left; apply in_flat_map; exists (File file); split; [exact Hin |].
    unfold path_child; rewrite Hfile; left; reflexivity.
  - right; apply in_flat_map; exists (Dir dn sub); split; [exact Hin |].
    assert (Hdn : _should_exclude b true (path_child root_path dn) = false).
    { destruct Hat; apply (Hdirs 1%nat); simpl; lia. }
    rewrite Hdn.
    specialize (IH (path_child root_path dn) dn).
    unfold path_child in IH; simpl in IH.
    rewrite <- !app_assoc in IH; simpl in IH.
    apply IH; [| exact Hfile].
    intros k Hk; specialize (Hdirs (S k)); simpl in Hdirs.
    rewrite <- app_assoc; simpl; apply Hdirs; lia.
Qed.

(** The walk loses nothing: a file of the project is collected when no
    rule excludes it and no directory between the root and the file is
    excluded. *)
Theorem collect_all_files_complete (b : ContextBuilder) (fs : FileSystem)
    (rel : list str) :
  file_at (listing fs) rel ->
  (forall k, (0 < k < List.length rel)%nat ->
     _should_exclude b true
       {| anchor := anchor (root b);
          parts := parts (root b) ++ firstn k rel |} = false) ->
  _should_exclude b false
    {| anchor := anchor (root b); parts := parts (root b) ++ rel |} = false ->
  In {| anchor := anchor (root b); parts := parts (root b) ++ rel |}
     (_collect_all_files b fs).
Proof. intros Hat; apply walk_collect_complete; exact Hat. Qed.

Lemma collect_all_files_complete_witness :
  In {| anchor := anchor (root sample_builder);
        parts := parts (root sample_builder)
                 ++ map py ["src"; "core"; "node.py"]%string |}
     (_collect_all_files sample_builder sample_fs).
Proof.
  apply collect_all_files_complete.
  - apply file_below with (sub := [Dir (py "core")
                                     [File (py "node.py");
                                      Dir (py "__pycache__")
                                        [File (py "notes.txt")]]]);
      [vm_compute; auto |].
    apply file_below with (sub := [File (py "node.py");
                                   Dir (py "__pycache__")
                                     [File (py "notes.txt")]]);
      [vm_compute; auto |].
    apply file_here; vm_compute; auto.
  - intros [|[|[|k]]] Hk; simpl in Hk; try lia; vm_compute; reflexivity.
  - vm_compute; reflexivity.
Defined.

(** What the walk returns has passed the file rules already: filtering it
    again with [apply_filters] changes nothing. *)
Theorem apply_filters_collect_all_files (b : ContextBuilder)
    (fs : FileSystem) :
  apply_filters b (map (pair false) (_collect_all_files b fs))
  = _collect_all_files b fs.
Proof.
  unfold apply_filters.
  assert (H : forall l : list Path,
             (forall p, In p l -> _should_exclude b false p = false) ->
             map snd (filter (fun f => negb (_should_exclude b (fst f) (snd f)))
                             (map (pair false) l)) = l).
  { induction l as [|p l IH]; intros Hl; [reflexivity |].
    cbn [map filter fst snd].
    rewrite (Hl p) by (left; reflexivity).
    cbn [negb map snd]; f_equal.
    apply IH; intros q Hq; apply Hl; right; exact Hq. }
  apply H; intros p Hp.
  destruct (walk_collect_descends _ _ _ _ Hp) as [rel [_ [_ [Hfile _]]]].
  exact Hfile.
Qed.

(** ** [prioritize_files] *)

Lemma path_key_lt_false_iff (a b : str) :
  path_key_lt b a = false <-> in_priority_order a b.
Proof. apply key_lt_false_iff. Qed.

Lemma in_priority_order_total (a b : str) :
  in_priority_order a b \/ in_priority_order b a.
Proof.
  unfold in_priority_order.
  rewrite (str_compare_antisym a b).
  destruct (Z.compare_spec (tier a) (tier b)) as [Heq | Hlt | Hgt];
    [| right; left; lia | left; left; lia].
  destruct (str_compare a b); simpl;
    [left | left | right]; right; split;
    try (symmetry; assumption); try assumption; discriminate.
Qed.

Lemma in_priority_order_antisym (a b : str) :
  in_priority_order a b -> in_priority_order b a -> a = b.
Proof.
  unfold in_priority_order.
  rewrite (str_compare_antisym a b).
  intros [H1 | [H1 C1]] [H2 | [H2 C2]]; try lia.
  apply str_compare_eq.
  destruct (str_compare a b); simpl in *; congruence.
Qed.

Lemma prioritize_files_strongly_sorted (l : list str) :
  StronglySorted (not_after path_key_lt) (py_sort path_key_lt l).
Proof.
  apply py_sort_sorted.
  - intros a b Hlt.
    destruct (in_priority_order_total a b) as [H | H].
    + apply path_key_lt_false_iff; exact H.
    + apply path_key_lt_false_iff in H; congruence.
  - intros a b c; unfold not_after.
    rewrite !path_key_lt_false_iff; apply in_priority_order_trans.
Qed.

Lemma py_sort_of_sorted (A : Type) (lt : A -> A -> bool) (l : list A) :
  Sorted (not_after lt) l -> py_sort lt l = l.
Proof.
  induction 1 as [| x l Hl IH Hhd]; simpl; [reflexivity |].
  rewrite IH.
  destruct Hhd as [| y l' Hxy]; simpl; [reflexivity |].
  unfold not_after in Hxy; rewrite Hxy; reflexivity.
Qed.

(** Prioritizing a second time changes nothing. *)
Theorem prioritize_files_idempotent (file_paths : list str) :
  prioritize_files (prioritize_files file_paths)
  = prioritize_files file_paths.
Proof.
  rewrite !prioritize_files_py_sort.
  apply py_sort_of_sorted, StronglySorted_Sorted.
  apply prioritize_files_strongly_sorted.
Qed.

Lemma sorted_permutation_unique (A : Type) (R : A -> A -> Prop)
    (l1 l2 : list A) :
  (forall x y, R x y -> R y x -> x = y) ->
  StronglySorted R l1 -> StronglySorted R l2 -> Permutation l1 l2 ->
  l1 = l2.
Proof.
  intros Hanti H1; revert l2.
  induction H1 as [| x t1 Ht1 IH Hx]; intros l2 H2 Hperm.
  - apply Permutation_nil in Hperm; subst; reflexivity.
  - destruct l2 as [|y t2];
      [apply Permutation_sym, Permutation_nil in Hperm; discriminate |].
    inversion H2 as [| ? ? Ht2 Hy]; subst.
    assert (Exy : x = y).
    { assert (Hxin : In x (y :: t2))
        by (eapply Permutation_in; [exact Hperm | left; reflexivity]).
      assert (Hyin : In y (x :: t1))
        by (eapply Permutation_in;
            [apply Permutation_sym; exact Hperm | left; reflexivity]).
      destruct Hxin as [-> | Hxin]; [reflexivity |].
      destruct Hyin as [<- | Hyin]; [reflexivity |].
      rewrite Forall_forall in Hx, Hy.
      apply Hanti; [apply Hx | apply Hy]; assumption. }
    subst y; f_equal.
    apply IH; [exact Ht2 |].
    eapply Permutation_cons_inv; exact Hperm.
Qed.

(** The result depends on the files given and not on the order they are
    given in: the order of the walk is not seen after the sort. *)
Theorem prioritize_files_order_independent (l1 l2 : list str) :
  Permutation l1 l2 -> prioritize_files l1 = prioritize_files l2.
Proof.
  intros Hperm; rewrite !prioritize_files_py_sort.
  apply sorted_permutation_unique with (R := not_after path_key_lt).
  - intros a b Hab Hba; unfold not_after in *.
    apply path_key_lt_false_iff in Hab, Hba.
    apply in_priority_order_antisym; assumption.
  - apply prioritize_files_strongly_sorted.
  - apply prioritize_files_strongly_sorted.
  - rewrite <- !py_sort_perm; exact Hperm.
Qed.

Lemma prioritize_files_order_independent_witness :
  prioritize_files (map py ["tests/test_a.py"; "README.md"]%string)
  = prioritize_files (map py ["README.md"; "tests/test_a.py"]%string).
Proof.
  apply prioritize_files_order_independent; apply perm_swap.
Defined.

(** ** [format_file_entry] *)

Lemma lstrip_all_space (s : str) :
  forallb isspace s = true -> lstrip s = [].
Proof.
  induction s as [|c s IH]; simpl; [reflexivity |].
  intros H; apply andb_true_iff in H; destruct H as [Hc Hs].
  rewrite Hc; apply IH; exact Hs.
Qed.

(** A file of white space only is rendered as its header line alone. *)
Theorem format_file_entry_blank (rel_path body : str) :
  forallb isspace body = true ->
  format_file_entry (plain_entry rel_path body)
  = ICON_FILE ++ rel_path.
Proof.
  intros Hblank; unfold format_file_entry, plain_entry.
  cbn [analysis content relative_path].
  unfold strip; rewrite (lstrip_all_space _ Hblank).
  reflexivity.
Qed.

Lemma format_file_entry_blank_witness :
  format_file_entry (plain_entry (py "notes.txt") (py "   "))
  = ICON_FILE ++ py "notes.txt".
Proof. apply format_file_entry_blank; vm_compute; reflexivity. Defined.

(** Otherwise the entry is the header line and then every line of the
    content behind three spaces, nothing added and nothing dropped. *)
Theorem format_file_entry_lines (rel_path body : str) :
  ~ In NL rel_path ->
  strip body <> [] ->
  split_lines (format_file_entry (plain_entry rel_path body))
  = (ICON_FILE ++ rel_path)
      :: map (fun line => py "   " ++ line) (split_lines body).
Proof.
  intros Hrel Hcontent; unfold format_file_entry, plain_entry.
  cbn [analysis content relative_path].
  destruct (strip body) as [|c cs]; [contradiction |].
  cbn [app].
  rewrite split_lines_join by discriminate.
  apply flat_map_split_lines.
  constructor.
  - intros H; apply in_app_or in H; destruct H as [H | H];
      [| contradiction].
    revert H; apply not_has_char; vm_compute; reflexivity.
  - apply Forall_forall; intros l Hl.
    apply in_map_iff in Hl; destruct Hl as [line [<- Hline]].
    pose proof (split_lines_pieces body) as Hp.
    rewrite Forall_forall in Hp.
    intros H; apply in_app_or in H; destruct H as [H | H];
      [| exact (Hp _ Hline H)].
    revert H; apply not_has_char; vm_compute; reflexivity.
Qed.

Lemma format_file_entry_lines_witness :
  split_lines (format_file_entry (plain_entry (py "a.txt") three_lines))
  = (ICON_FILE ++ py "a.txt")
      :: map (fun line => py "   " ++ line) (split_lines three_lines).
Proof.
  apply format_file_entry_lines.
  - apply not_has_char; vm_compute; reflexivity.
  - vm_compute; discriminate.
Defined.

(** ** [PythonFileAnalyzer.analyze] *)

Lemma visit_counts (ast_unparse : expr -> result str) (a a' : FileAnalysis)
    (n : node) :
  visit ast_unparse a n = Return a' ->
  line_count a' = line_count a /\ code_line_count a' = code_line_count a.
Proof.
  destruct n; simpl; intros H;
    try (inversion H; subst; split; reflexivity).
  destruct (class_bases ast_unparse bases); simpl in H;
    inversion H; subst; split; reflexivity.
Qed.

Lemma visit_all_counts (ast_unparse : expr -> result str)
    (nodes : list node) :
  forall a,
    line_count (fst (visit_all ast_unparse a nodes)) = line_count a /\
    code_line_count (fst (visit_all ast_unparse a nodes))
    = code_line_count a.
Proof.
  induction nodes as [|n nodes IH]; intros a; simpl; [split; reflexivity |].
  destruct (visit ast_unparse a n) as [a' | e] eqn:Ev;
    [| split; reflexivity].
  destruct (visit_counts _ _ _ Ev) as [Hl Hc].
  destruct (IH a') as [Hl' Hc']; split; congruence.
Qed.

(** Whatever [analyze] returns, the line count is that of the raw text
    and at least 1, and the count of code lines lies between 0 and it. *)
Theorem analyze_counts (grammar : str -> result node)
    (ast_unparse : expr -> result str) (content : str) (a : FileAnalysis) :
  analyze grammar ast_unparse content = Return a ->
  line_count a = len (split_lines content) /\
  1 <= line_count a /\
  0 <= code_line_count a <= line_count a.
Proof.
  assert (Hone : 1 <= len (split_lines content)).
  { pose proof (split_lines_nonempty content).
    unfold len; destruct (split_lines content); [contradiction |].
    simpl List.length; lia. }
  assert (Hfilter : 0 <= len (filter is_code_line (split_lines content))
                    <= len (split_lines content)).
  { unfold len; pose proof (filter_length_le is_code_line
                              (split_lines content)); lia. }
  unfold analyze.
  destruct (ast_parse grammar content) as [tree | e].
  - pose proof (visit_all_counts ast_unparse (walk tree)
                  {| imports := []; classes := []; functions := [];
                     line_count := len (split_lines content);
                     code_line_count := 0 |}) as [Hl Hc].
    destruct (visit_all ast_unparse _ (walk tree)) as [a0 [e |]];
      simpl in Hl, Hc.
    + destruct (caught e); [| discriminate].
      intros H; inversion H; subst a; rewrite Hl, Hc; lia.
    + intros H; inversion H; subst a; simpl; rewrite Hl; lia.
  - destruct (caught e); [| discriminate].
    intros H; inversion H; subst a; simpl; lia.
Qed.

Lemma analyze_counts_witness :
  line_count {| imports := []; classes := []; functions := [];
                line_count := 1; code_line_count := 0 |}
  = len (split_lines (py "def f(:")) /\
  1 <= 1 /\ 0 <= 0 <= 1.
Proof.
  apply (@analyze_counts reject_all unparse_fails (py "def f(:")
           {| imports := []; classes := []; functions := [];
              line_count := 1; code_line_count := 0 |}).
  reflexivity.
Defined.

(** ** [build] *)

Section BuildBounds.

Variable grammar : str -> result node.
Variable ast_unparse : expr -> result str.
Variable b : ContextBuilder.
Variable fs : FileSystem.

Lemma file_parts_length (total i : Z) (file_str : str) (ps : list str) :
  file_parts grammar ast_unparse b fs total i file_str = Return ps ->
  (List.length ps <= 2)%nat.
Proof.
  unfold file_parts.
  destruct (_read_file fs (path_join (root b) file_str)) as [[|c cs] |];
    try (intros H; inversion H; simpl; lia).
  destruct (str_eqb _ _); unfold bind.
  - destruct (analyze grammar ast_unparse (c :: cs)); cbv beta iota;
      [| intros H; discriminate H].
    intros H; inversion H; destruct (i <? total); cbn [List.length]; lia.
  - intros H; inversion H; destruct (i <? total); cbn [List.length]; lia.
Qed.

Lemma files_loop_length (total : Z) (prioritized : list str) :
  forall i ps,
    files_loop grammar ast_unparse b fs total i prioritized = Return ps ->
    (List.length ps <= 2 * List.length prioritized)%nat.
Proof.
  induction prioritized as [|file_str rest IH]; intros i ps; simpl.
  - intros H; inversion H; simpl; lia.
  - destruct (file_parts grammar ast_unparse b fs total i file_str)
      as [here |] eqn:Eh; [| intros H; discriminate H].
    unfold bind at 1.
    destruct (files_loop grammar ast_unparse b fs total (i + 1) rest)
      as [after |] eqn:Ea; [| intros H; discriminate H].
    intros H; inversion H.
    apply file_parts_length in Eh; apply IH in Ea.
    rewrite length_app; lia.
Qed.



End BuildBounds.



(** ** Paths between the walk and the reading *)

Lemma split_slash_nonempty (s : str) : split_slash s <> [].
Proof.
  destruct s as [|c s]; simpl; [discriminate |].
  destruct (char_eqb c SLASH); [discriminate |].
  destruct (split_slash s); discriminate.
Qed.

Lemma split_slash_app (a c : str) :
  split_slash (a ++ SLASH :: c) = split_slash a ++ split_slash c.
Proof.
  induction a as [|x a IH]; simpl; [reflexivity |].
  destruct (char_eqb x SLASH); rewrite IH; [reflexivity |].
  pose proof (split_slash_nonempty a) as Hne.
  destruct (split_slash a); [contradiction | reflexivity].
Qed.

Lemma split_slash_one (l : str) : ~ In SLASH l -> split_slash l = [l].
Proof.
  induction l as [|c l IH]; simpl; intros Hn; [reflexivity |].
  destruct (char_eqb c SLASH) eqn:E.
  - apply N.eqb_eq in E; subst; exfalso; apply Hn; left; reflexivity.
  - rewrite IH by tauto; reflexivity.
Qed.

Lemma split_slash_join (ps : list str) :
  ps <> [] -> Forall (fun seg => ~ In SLASH seg) ps ->
  split_slash (join [SLASH] ps) = ps.
Proof.
  induction ps as [|p ps IH]; intros Hne Hall; [contradiction |].
  inversion Hall as [| ? ? Hp Hps]; subst.
  destruct ps as [|q ps].
  - apply split_slash_one; exact Hp.
  - change (join [SLASH] (p :: q :: ps))
      with (p ++ SLASH :: join [SLASH] (q :: ps)).
    rewrite split_slash_app, split_slash_one, IH by (auto; discriminate).
    reflexivity.
Qed.

Lemma valid_name_spec (name : str) :
  valid_name name = true ->
  name <> [] /\ name <> [DOT] /\ ~ In SLASH name.
Proof.
  unfold valid_name; rewrite !andb_true_iff, !negb_true_iff.
  intros [[H1 H2] H3]; repeat split.
  - apply str_eqb_neq; exact H1.
  - apply str_eqb_neq; exact H2.
  - apply not_has_char; exact H3.
Qed.

Lemma parse_anchor_relative (c : char) (s : str) :
  c <> SLASH -> parse_anchor (c :: s) = [].
Proof.
  intros Hc.
  assert (E : char_eqb c SLASH = false) by (apply N.eqb_neq; exact Hc).
  destruct s as [|x [|y s]]; simpl; rewrite E; reflexivity.
Qed.

(** Parsing the string of a relative path of valid names gives the names
    back. *)
Lemma path_of_str_join (rel : list str) :
  rel <> [] -> Forall (fun name => valid_name name = true) rel ->
  path_of_str (join [SLASH] rel) = {| anchor := []; parts := rel |}.
Proof.
  intros Hne Hall.
  assert (Hslash : Forall (fun seg => ~ In SLASH seg) rel).
  { eapply Forall_impl; [| exact Hall].
    intros name H; apply valid_name_spec in H; tauto. }
  unfold path_of_str; rewrite split_slash_join by assumption.
  f_equal.
  - destruct rel as [|p rel]; [contradiction |].
    inversion Hall as [| ? ? Hp _]; subst.
    apply valid_name_spec in Hp; destruct Hp as [Hp1 [_ Hp3]].
    destruct p as [|c p]; [contradiction |].
    assert (Hc : c <> SLASH) by (intros ->; apply Hp3; left; reflexivity).
    destruct rel; simpl join; apply parse_anchor_relative; exact Hc.
  - clear Hne Hslash; induction Hall as [| name rel Hname _ IH];
      [reflexivity |].
    cbn [filter].
    apply valid_name_spec in Hname; destruct Hname as [H1 [H2 _]].
    apply str_eqb_neq in H1, H2; rewrite H1, H2; cbn [orb negb].
    rewrite IH; reflexivity.
Qed.

Lemma walk_collect_names (b : ContextBuilder) (e : entry) :
  forall root_path p,
    In p (walk_collect b root_path e) ->
    exists rel,
      rel <> [] /\
      p = {| anchor := anchor root_path; parts := parts root_path ++ rel |} /\
      incl rel (tl (names_in e)).
Proof.
  induction e as [name | name entries IH] using entry_induction;
    intros root_path p Hin; [destruct Hin |].
  rewrite walk_collect_Dir in Hin.
  cbn [names_in tl].
  apply in_app_or in Hin; destruct Hin as [Hin | Hin];
    apply in_flat_map in Hin; destruct Hin as [x [Hx Hin]].
  - destruct x as [file | dn sub]; [| destruct Hin].
    destruct (_should_exclude b false (path_child root_path file));
      [destruct Hin |].
    destruct Hin as [<- | []].
    exists [file]; split; [discriminate | split; [reflexivity |]].
    intros n [<- | []]; apply in_flat_map.
    exists (File file); split; [exact Hx | left; reflexivity].
  - destruct x as [file | dn sub]; [destruct Hin |].
    destruct (_should_exclude b true (path_child root_path dn));
      [destruct Hin |].
    rewrite Forall_forall in IH.
    destruct (IH _ Hx _ _ Hin) as [rel [Hne [Hp Hincl]]].
    exists (dn :: rel); split; [discriminate | split].
    + rewrite Hp; simpl; rewrite <- app_assoc; reflexivity.
    + intros n Hn; apply in_flat_map.
      exists (Dir dn sub); split; [exact Hx |].
      destruct Hn as [<- | Hn]; [left; reflexivity |].
      right; apply Hincl; exact Hn.
Qed.

(** When the names of the project are names a listing can hold, the path
    [build] reads a file from, the root joined with the relative string it
    made of the collected path, is the collected path itself. *)
Theorem build_reads_collected_path (b : ContextBuilder) (fs : FileSystem)
    (file_path : Path) :
  Forall (fun name => valid_name name = true) (listing_names (listing fs)) ->
  In file_path (_collect_all_files b fs) ->
  path_join (root b) (relative_str b file_path) = file_path.
Proof.
  intros Hvalid Hin.
  destruct (walk_collect_names _ _ _ _ Hin) as [rel [Hne [Hp Hincl]]].
  cbn [names_in tl] in Hincl; fold (listing_names (listing fs)) in Hincl.
  assert (Hrel : Forall (fun name => valid_name name = true) rel).
  { rewrite Forall_forall in *; intros n Hn; apply Hvalid, Hincl, Hn. }
  unfold relative_str, relative_parts; rewrite Hp; cbn [parts].
  rewrite skipn_app, skipn_all, Nat.sub_diag; cbn [skipn app].
  unfold path_str; cbn [anchor parts].
  destruct rel as [|r rel]; [contradiction |].
  cbn [app]; unfold path_join.
  rewrite path_of_str_join by (assumption || discriminate).
  reflexivity.
Qed.

Lemma build_reads_collected_path_witness :
  path_join (root sample_builder)
            (relative_str sample_builder
               (path_of_str (py "/home/user/project/src/core/node.py")))
  = path_of_str (py "/home/user/project/src/core/node.py").
Proof.
  apply (@build_reads_collected_path sample_builder sample_fs).
  - repeat constructor.
  - vm_compute; auto.
Defined.

(** ** [build_directory_tree] on a flat project *)

Lemma register_root_files (names acc : list str) :
  fold_left register_file (map (fun name => [name]) names) [([DOT], acc)]
  = [([DOT], acc ++ names)].
Proof.
  revert acc; induction names as [|name names IH]; intros acc; simpl map;
    cbn [fold_left]; [rewrite app_nil_r; reflexivity |].
  change (register_file [([DOT], acc)] [name])
    with [([DOT], acc ++ [name])].
  rewrite IH, <- app_assoc; reflexivity.
Qed.

Lemma render_root_files (structure_names cs : list str) :
  Forall (fun name => valid_name name = true) cs ->
  render_root [([DOT], structure_names)] cs
  = Some (map (fun name => ICON_FILE ++ name) cs).
Proof.
  induction 1 as [| name cs Hname _ IH]; [reflexivity |].
  cbn [render_root map].
  apply valid_name_spec in Hname; destruct Hname as [_ [Hdot Hslash]].
  assert (Hkey : structure_has [([DOT], structure_names)] name = false).
  { unfold structure_has; cbn [structure_get].
    destruct (str_eqb [DOT] name) eqn:E; [| reflexivity].
    apply str_eqb_eq in E; congruence. }
  assert (Hs : has_char SLASH name = false).
  { destruct (has_char SLASH name) eqn:E; [| reflexivity].
    apply has_char_In in E; contradiction. }
  rewrite Hkey, Hs, IH; reflexivity.
Qed.

(** A project whose files all lie directly under the root is rendered as
    its file names in sorted order, one line each behind the file icon. *)
Theorem render_tree_flat (names : list str) :
  Forall (fun name => valid_name name = true) names ->
  render_tree (map (fun name => [name]) names)
  = Return (join [NL] (map (fun name => ICON_FILE ++ name) (sorted names))).
Proof.
  intros Hvalid; unfold render_tree.
  destruct names as [|name names]; [reflexivity |].
  cbn [map fold_left].
  change (register_file [] [name]) with [([DOT], [name])].
  rewrite register_root_files.
  change (structure_has [([DOT], [name] ++ names)] [DOT]) with true.
  cbv iota.
  change (children_of [([DOT], [name] ++ names)] [DOT])
    with (name :: names).
  rewrite render_root_files; [reflexivity |].
  eapply Permutation_Forall; [| exact Hvalid].
  apply py_sort_perm.
Qed.

Lemma render_tree_flat_witness :
  render_tree [[py "setup.py"]; [py "README.md"]]
  = Return (py "📄 README.md" ++ [NL] ++ py "📄 setup.py").
Proof.
  apply (@render_tree_flat [py "setup.py"; py "README.md"]).
  repeat constructor.
Defined.
